(** * convo.space: the in-memory conversation engine

    A shallow embedding of the Go sources ([util.go], [convo.go], the
    registry file declaring [Room], [main.go]) and the properties of the
    relay's conversation registry proved over it.

    Conventions of the embedding:
    - a Go [string] is a [string]; a Go [[]byte] is [bytes], the [nil] slice
      or a slice holding a byte string;
    - a Go [int] is a [Z] kept in the 64-bit two's-complement range by
      [wrap64];
    - a Go [map[string]T] is a [gmap string T]; reading an absent key gives
      the zero value of [T];
    - an [error] is the message it was built from; a [nil] error is [None];
    - a channel is a handle of type [chan]; sending on it is recorded as an
      [event] of the world's trace, in program order;
    - a [*User] is the record of the user's fields, told apart by its
      [Pipe]: the handlers make every user afresh and its fields are written
      only before it is put in a slot, so [CreateConvo] and [JoinConvo]
      return the user as they leave it;
    - the methods of [Room] run in the monad [M], which threads the [world]
      (the global [Store], the channel allocator and the trace) and stops at
      a run-time panic or at a mutex that is already held. A method holds
      the mutex from its first statement to its deferred unlock, so one call
      is one critical section and the worlds between calls are the ones
      other goroutines can observe. *)

From Stdlib Require Import ZArith NArith Ascii String List Lia Bool.
From stdpp Require Import base option gmap strings list fin_maps pretty.

Local Open Scope string_scope.
Local Open Scope list_scope.
Local Open Scope Z_scope.

(** ** Go values *)

(** [[]byte]: the nil slice, or a slice with its contents. *)
Inductive bytes : Type :=
| nil_bytes
| Bytes (s : string).

#[global] Instance bytes_eq_dec : EqDecision bytes.
Proof. solve_decision. Defined.

(** [data == nil] *)
Definition is_nil (data : bytes) : bool :=
  match data with nil_bytes => true | Bytes _ => false end.

(** [data[:]] spread into [append]: the nil slice contributes nothing. *)
Definition contents (data : bytes) : string :=
  match data with nil_bytes => "" | Bytes s => s end.

(** [error]: the message given to [errors.New]. *)
Definition error : Type := string.

(** A channel made by [make(chan T)]. *)
Definition chan : Type := positive.

(** Go's [int] on a 64-bit target. *)
Definition wrap64 (z : Z) : Z := (z + 2 ^ 63) mod 2 ^ 64 - 2 ^ 63.

Definition int64_range (z : Z) : Prop := - 2 ^ 63 <= z < 2 ^ 63.

(** ** util.go *)

(** [func OtherUserId(userId int) int { return (^userId) + 2 }] *)
Definition OtherUserId (userId : Z) : Z := wrap64 (Z.lnot userId + 2).

(** [hash/fnv]'s 32-bit FNV-1a over a byte string: for each byte, xor it
    into the hash, then multiply by the prime modulo 2^32. *)
Definition fnv32a_offset : N := 2166136261%N.
Definition fnv32a_prime : N := 16777619%N.

Fixpoint fnv32a_write (h : N) (s : string) : N :=
  match s with
  | EmptyString => h
  | String c s' =>
      fnv32a_write ((N.lxor h (N_of_ascii c) * fnv32a_prime) mod 2 ^ 32)%N s'
  end.

Definition Sum32 (s : string) : N := fnv32a_write fnv32a_offset s.

(** The clock reading [time.Now().MarshalBinary()]: the serialized timestamp
    and the error of the serialization. *)
Definition clock : Type := (string * option error)%type.

(** [func NewId(data []byte) (string, error)], at a given clock reading:
    the decimal rendering of the hash of the time followed by the salt. *)
Definition NewId (now : clock) (data : bytes) : string * option error :=
  match now with
  | (_, Some err) => ("", Some err)
  | (t, None) => (pretty (Sum32 (t +:+ contents data)), None)
  end.

(** ** The data model *)

(** What the code asks of the [http.ResponseWriter] it is handed: whether it
    is an [http.Flusher] and whether it is an [http.CloseNotifier]. *)
Record ResponseWriter : Type := mkWriter {
  Flusher : bool;
  CloseNotifier : bool
}.

#[global] Instance ResponseWriter_eq_dec : EqDecision ResponseWriter.
Proof. solve_decision. Defined.

(** [type User struct]. [Pipe] is the channel [NewUser] makes; [Stop] is a
    channel value that may be [nil]. The [Request] field is stored and never
    read again, and is left out. *)
Module User.
Record t : Type := mk {
  Pipe : chan;
  Stop : option chan;
  IP : string;
  UserId : Z;
  ConvoId : string;
  Writer : ResponseWriter
}.

#[global] Instance eq_dec : EqDecision t.
Proof. solve_decision. Defined.
End User.

(** What a goroutine does to the outside of the registry, in program order. *)
Inductive event : Type :=
| Send (ch : chan) (data : bytes)     (* ch <- data, on a chan []byte *)
| Signal (ch : chan)                  (* ch <- struct{}{} *)
| GoPing (convoId : string)           (* go r.Convos[convoId].Ping() *)
| Println (s : string).               (* println(s) *)

#[global] Instance event_eq_dec : EqDecision event.
Proof. solve_decision. Defined.

(** The payloads sent on channel [ch], oldest first. *)
Fixpoint inbox (ch : chan) (tr : list event) : list bytes :=
  match tr with
  | [] => []
  | Send ch' data :: tr' =>
      if decide (ch' = ch) then data :: inbox ch tr' else inbox ch tr'
  | _ :: tr' => inbox ch tr'
  end.

(** [func (u *User) Write(data []byte) { u.Pipe <- data }] *)
Definition Write (u : User.t) (data : bytes) : list event :=
  [Send (User.Pipe u) data].

(** [[2]*User]: two slots, each [nil] or a user. *)
Definition slots : Type := (option User.t * option User.t)%type.

(** [Users[i]]; [None] when the index is out of range (a run-time panic). *)
Definition slot_get (us : slots) (i : Z) : option (option User.t) :=
  if i =? 0 then Some (fst us)
  else if i =? 1 then Some (snd us)
  else None.

(** [Users[i] = v], for an index in range. *)
Definition slot_set (us : slots) (i : Z) (v : option User.t) : slots :=
  if i =? 0 then (v, snd us)
  else if i =? 1 then (fst us, v)
  else us.

(** The number of occupied slots. *)
Definition occupancy (us : slots) : nat :=
  ((if fst us is Some _ then 1 else 0) + (if snd us is Some _ then 1 else 0))%nat.

(** The users in the occupied slots, slot 0 first. *)
Definition occupants (us : slots) : list User.t :=
  (match fst us with Some u => [u] | None => [] end) ++
  (match snd us with Some u => [u] | None => [] end).

(** ** convo.go *)

Module Convo.

(** [type Convo struct] *)
Record t : Type := mk {
  ConvoId : string;
  Users : slots;
  Messages : gmap string bytes;
  Stop : chan
}.

(** [func (c *Convo) Broadcast(data []byte) error]: the sends it makes and
    the error it returns. *)
Definition Broadcast (c : t) (data : bytes) : list event * option error :=
  match Users c with
  | (None, None) => ([], Some "no users in conversation")
  | (u0, u1) =>
      ((match u0 with Some u => Write u data | None => [] end) ++
       (match u1 with Some u => Write u data | None => [] end),
       None)
  end.

(** One firing of the 30-second timer in [func (c *Convo) Ping()]. *)
Definition Ping_tick (c : t) : list event := fst (Broadcast c (Bytes ".")).

(** [func (c *Convo) CreateMessage(data []byte) (string, error)]: the
    conversation after the call, the message id and the error. *)
Definition CreateMessage (now : clock) (c : t) (data : bytes)
  : t * (string * option error) :=
  match NewId now data with
  | (_, Some err) => (c, ("", Some err))
  | (messageId, None) =>
      match Messages c !! messageId with
      | Some _ => (c, ("", Some "message id overwrite"))
      | None =>
          (mk (ConvoId c) (Users c) (<[messageId := data]> (Messages c)) (Stop c),
           (messageId, None))
      end
  end.

(** [func (c *Convo) ReadMessage(messageId string) []byte]: reading an
    absent key of a Go map gives the zero value, the nil slice. *)
Definition ReadMessage (c : t) (messageId : string) : bytes :=
  default nil_bytes (Messages c !! messageId).

Section WithURL.
(** The global [URL], set once by [main] before the server starts. *)
Variable URL : string.

(** The closure [notify] of [AddMessage]. *)
Definition notify (c : t) (ip messageId : string) (user : User.t)
  : list event :=
  let self := if decide (User.IP user = ip) then "  " else "+ " in
  Write user (Bytes (self +:+ URL +:+ ConvoId c +:+ "/" +:+ messageId)).

(** [func (c *Convo) AddMessage(data []byte, ip string) error] *)
Definition AddMessage (now : clock) (c : t) (data : bytes) (ip : string)
  : t * list event * option error :=
  match CreateMessage now c data with
  | (c', (_, Some err)) => (c', [], Some err)
  | (c', (messageId, None)) =>
      (c',
       (match fst (Users c') with
        | Some u => notify c' ip messageId u | None => [] end) ++
       (match snd (Users c') with
        | Some u => notify c' ip messageId u | None => [] end),
       None)
  end.
End WithURL.

End Convo.

(** ** The world and the monad of the registry's methods *)

(** [type Room struct]: the embedded [sync.Mutex] ([mu] is [true] while it
    is held) and the map of the live conversations. *)
Record Room : Type := mkRoom {
  mu : bool;
  Convos : gmap string Convo.t
}.

(** The process state the registry's methods act on: the global [Store],
    the next channel [make] hands out, and the events so far. *)
Record world : Type := mkWorld {
  Store : Room;
  next_chan : chan;
  trace : list event
}.

(** What a goroutine panics with: a run-time error, or the error value given
    to [panic(err)]. *)
Inductive panic_value : Type :=
| RuntimeError (msg : string)
| ErrorValue (err : error).

(** How a call ends: it returns, it panics, or it waits for ever on the
    mutex. *)
Inductive outcome (A : Type) : Type :=
| Ret (a : A) (w : world)
| Panic (p : panic_value) (w : world)
| Blocked (w : world).
Arguments Ret {A} a w.
Arguments Panic {A} p w.
Arguments Blocked {A} w.

Definition M (A : Type) : Type := world -> outcome A.

#[global] Instance M_ret : MRet M := fun A a w => Ret a w.

#[global] Instance M_bind : MBind M := fun A B f m w =>
  match m w with
  | Ret a w' => f a w'
  | Panic p w' => Panic p w'
  | Blocked w' => Blocked w'
  end.

(** The world an outcome leaves behind. *)
Definition final {A} (o : outcome A) : world :=
  match o with Ret _ w | Panic _ w | Blocked w => w end.

(** [defer d] around [body]: [d] runs when [body] returns, after the
    returned value has been computed, and also when [body] panics; a panic
    of [d] replaces the one in flight. *)
Definition defer {A} (d : M unit) (body : M A) : M A := fun w =>
  match body w with
  | Ret a w' =>
      match d w' with
      | Ret _ w'' => Ret a w''
      | Panic p w'' => Panic p w''
      | Blocked w'' => Blocked w''
      end
  | Panic p w' =>
      match d w' with
      | Ret _ w'' => Panic p w''
      | Panic p' w'' => Panic p' w''
      | Blocked w'' => Blocked w''
      end
  | Blocked w' => Blocked w'
  end.

Definition panic {A} (p : panic_value) : M A := fun w => Panic p w.

Definition nil_dereference : panic_value :=
  RuntimeError "invalid memory address or nil pointer dereference".

Definition index_out_of_range : panic_value :=
  RuntimeError "index out of range".

Definition set_mu (b : bool) (w : world) : world :=
  mkWorld (mkRoom b (Convos (Store w))) (next_chan w) (trace w).

Definition set_Convos (m : gmap string Convo.t) (w : world) : world :=
  mkWorld (mkRoom (mu (Store w)) m) (next_chan w) (trace w).

(** [r.Lock()] *)
Definition Lock : M unit := fun w =>
  if mu (Store w) then Blocked w else Ret () (set_mu true w).

(** [r.Unlock()] *)
Definition Unlock : M unit := fun w =>
  if mu (Store w) then Ret () (set_mu false w)
  else Panic (RuntimeError "sync: unlock of unlocked mutex") w.

(** Appends events to the trace. *)
Definition emit (evs : list event) : M unit := fun w =>
  Ret () (mkWorld (Store w) (next_chan w) (trace w ++ evs)).

(** [make(chan T)] *)
Definition make_chan : M chan := fun w =>
  Ret (next_chan w) (mkWorld (Store w) (Pos.succ (next_chan w)) (trace w)).

(** [r.Convos[convoId]] read through: the conversation the pointer leads to;
    a missing key gives the nil pointer, and reading a field through it
    panics. *)
Definition convo (convoId : string) : M Convo.t := fun w =>
  match Convos (Store w) !! convoId with
  | Some c => Ret c w
  | None => Panic nil_dereference w
  end.

(** The writes made through the pointer [r.Convos[convoId]]. *)
Definition put_convo (convoId : string) (c : Convo.t) : M unit := fun w =>
  Ret () (set_Convos (<[convoId := c]> (Convos (Store w))) w).

(** [delete(r.Convos, convoId)] *)
Definition delete_convo (convoId : string) : M unit := fun w =>
  Ret () (set_Convos (delete convoId (Convos (Store w))) w).

(** [Users[i]], panicking out of range. *)
Definition user_slot (us : slots) (i : Z) : M (option User.t) :=
  match slot_get us i with
  | Some s => mret s
  | None => panic index_out_of_range
  end.

(** A field read through a [*User] that may be nil. *)
Definition deref_user (s : option User.t) : M User.t :=
  match s with
  | Some u => mret u
  | None => panic nil_dereference
  end.

(** ** The registry: the methods of [Room] *)

Module Room.

(** [Users[i] != nil && Users[i].IP == ip] *)
Definition has_ip (s : option User.t) (ip : string) : bool :=
  match s with
  | Some u => bool_decide (User.IP u = ip)
  | None => false
  end.

(** [func (r *Room) IPExists(convoId, ip string) bool] *)
Definition IPExists (convoId ip : string) : M bool :=
  Lock ;;
  defer Unlock (
    c ← convo convoId;
    if has_ip (fst (Convo.Users c)) ip then mret true
    else if has_ip (snd (Convo.Users c)) ip then mret true
    else mret false).

(** [func (r *Room) OtherUser(convoId string, userId int) []byte] *)
Definition OtherUser (convoId : string) (userId : Z) : M bytes :=
  Lock ;;
  defer Unlock (
    c ← convo convoId;
    s ← user_slot (Convo.Users c) (OtherUserId userId);
    u ← deref_user s;
    mret (Bytes ("> " +:+ User.IP u))).

(** [func (r *Room) DeleteUser(convoId string, userId int)] *)
Definition DeleteUser (convoId : string) (userId : Z) : M unit :=
  Lock ;;
  defer Unlock (
    c ← convo convoId;
    s ← user_slot (Convo.Users c) userId;
    u ← deref_user s;
    let ip := User.IP u in
    let c' := Convo.mk (Convo.ConvoId c)
                       (slot_set (Convo.Users c) userId None)
                       (Convo.Messages c) (Convo.Stop c) in
    put_convo convoId c' ;;
    match Convo.Users c' with
    | (None, None) =>
        emit [Println ("deleting " +:+ convoId)] ;;
        emit [Signal (Convo.Stop c')] ;;
        delete_convo convoId
    | us =>
        o ← user_slot us (OtherUserId userId);
        other ← deref_user o;
        emit (Write other (Bytes ("< " +:+ ip)))
    end).

(** [func (r *Room) IsConvo(convoId string) bool] *)
Definition IsConvo (convoId : string) : M bool :=
  Lock ;;
  defer Unlock (fun w =>
    Ret (bool_decide (is_Some (Convos (Store w) !! convoId))) w).

(** [func (r *Room) IsConvoFull(convoId string) bool] *)
Definition IsConvoFull (convoId : string) : M bool :=
  Lock ;;
  defer Unlock (
    c ← convo convoId;
    match Convo.Users c with
    | (Some _, Some _) => mret true
    | _ => mret false
    end).

(** [func (r *Room) JoinConvo(user *User, convoId string) error]. The
    fields written through [user] are returned with the error. *)
Definition JoinConvo (user : User.t) (convoId : string)
  : M (User.t * option error) :=
  Lock ;;
  defer Unlock (
    let user := User.mk (User.Pipe user) (User.Stop user) (User.IP user)
                        (User.UserId user) convoId (User.Writer user) in
    c ← convo convoId;
    let slot :=
      match Convo.Users c with
      | (None, Some _) => Some 0
      | (Some _, None) => Some 1
      | _ => None
      end in
    match slot with
    | None => mret (user, Some "this is bad")
    | Some i =>
        let user := User.mk (User.Pipe user) (User.Stop user) (User.IP user)
                            i (User.ConvoId user) (User.Writer user) in
        emit (fst (Convo.Broadcast c (Bytes ("> " +:+ User.IP user)))) ;;
        put_convo convoId
          (Convo.mk (Convo.ConvoId c)
                    (slot_set (Convo.Users c) (User.UserId user) (Some user))
                    (Convo.Messages c) (Convo.Stop c)) ;;
        mret (user, None)
    end).

(** [func (r *Room) CreateConvo(user *User) (string, error)]. [NewId] runs
    before the mutex is taken. *)
Definition CreateConvo (now : clock) (user : User.t)
  : M (User.t * (string * option error)) :=
  match NewId now nil_bytes with
  | (_, Some err) => mret (user, ("", Some err))
  | (convoId, None) =>
      Lock ;;
      defer Unlock (
        c ← (fun w => Ret (Convos (Store w) !! convoId) w);
        match c with
        | Some _ => mret (user, ("", Some "convo id overwrite"))
        | None =>
            let user := User.mk (User.Pipe user) (User.Stop user)
                                (User.IP user) 0 convoId (User.Writer user) in
            stop ← make_chan;
            put_convo convoId (Convo.mk convoId (Some user, None) ∅ stop) ;;
            emit [GoPing convoId] ;;
            emit [Println ("creating " +:+ convoId)] ;;
            mret (user, (convoId, None))
        end)
  end.

Section WithURL.
Variable URL : string.

(** [func (r *Room) ReadMessage(convoId, messageId string) ([]byte, error)].
    The deferred function deletes the message, then unlocks. *)
Definition ReadMessage (convoId messageId : string)
  : M (bytes * option error) :=
  Lock ;;
  defer (c ← convo convoId;
         put_convo convoId
           (Convo.mk (Convo.ConvoId c) (Convo.Users c)
                     (delete messageId (Convo.Messages c)) (Convo.Stop c)) ;;
         Unlock) (
    c ← convo convoId;
    if is_nil (Convo.ReadMessage c messageId)
    then mret (nil_bytes, Some "message doesn't exist")
    else
      emit (fst (Convo.Broadcast c
                   (Bytes ("- " +:+ URL +:+ convoId +:+ "/" +:+ messageId)))) ;;
      c ← convo convoId;
      mret (Convo.ReadMessage c messageId, None)).

(** [func (r *Room) AddMessage(data []byte, convoId, ip string) error] *)
Definition AddMessage (now : clock) (data : bytes) (convoId ip : string)
  : M (option error) :=
  Lock ;;
  defer Unlock (
    c ← convo convoId;
    let '(c', evs, err) := Convo.AddMessage URL now c data ip in
    put_convo convoId c' ;;
    emit evs ;;
    mret err).
End WithURL.

End Room.

(** ** util.go: connections *)

(** What the handlers read of an [*http.Request]: the [User-Agent] header,
    [RemoteAddr], and what [ioutil.ReadAll(r.Body)] gives, which is never the
    nil slice. *)
Record Request : Type := mkRequest {
  UserAgent : string;
  RemoteAddr : string;
  Body : string;
  BodyErr : option error
}.

Definition ReadAll (r : Request) : bytes * option error :=
  (Bytes (Body r), BodyErr r).

(** How a handler ends when it does not panic: it returns, having written
    [body] to the response if it wrote at all, or it stays in the loop of
    [user.Listen()]. *)
Inductive reply : Type :=
| Done (body : option bytes)
| Streaming (user : User.t).

Section Handlers.
(** The global [URL]. *)
Variable URL : string.
(** The landing page, a constant declared outside the files at hand. *)
Variable PAGE : string.
(** [net.SplitHostPort] of the standard library. *)
Variable SplitHostPort : string -> string * string * option error.

(** [func GetIP(ip string) string] *)
Definition GetIP (ip : string) : string :=
  let '(host, _, _) := SplitHostPort ip in host.

(** [func NewUser(w http.ResponseWriter, r *http.Request) *User]: [Stop],
    [UserId] and [ConvoId] are left at their zero values. *)
Definition NewUser (w : ResponseWriter) (r : Request) : M User.t :=
  pipe ← make_chan;
  mret (User.mk pipe None (GetIP (RemoteAddr r)) 0 "" w).

(** [func (u *User) Listen() error], up to the entry of its loop: the
    error it returns at once, or [None] when the loop is entered. The loop
    and the goroutine that waits for the client are in [ListenLoop]. *)
Definition Listen_enter (u : User.t) : M (option error) :=
  if Flusher (User.Writer u) then
    if CloseNotifier (User.Writer u) then mret None
    else panic (RuntimeError "interface conversion")
  else mret (Some "couldn't get flusher").

(** ** main.go: the handlers *)

(** [len(ua) < 4 || ua[:4] != "curl"] *)
Definition not_curl (ua : string) : bool :=
  (String.length ua <? 4)%nat || negb (String.eqb (substring 0 4 ua) "curl").

(** [func GET(w http.ResponseWriter, r *http.Request, ids []string)] *)
Definition GET (now : clock) (w : ResponseWriter) (r : Request)
    (ids : list string) : M reply :=
  if not_curl (UserAgent r) then mret (Done (Some (Bytes PAGE)))
  else
    match ids with
    | [_; id1] =>
        if (String.length id1 =? 0)%nat then
          user ← NewUser w r;
          res ← Room.CreateConvo now user;
          let '(user, (convoId, err)) := res in
          match err with
          | Some e => panic (ErrorValue e)
          | None =>
              emit (Write user (Bytes (": " +:+ URL +:+ convoId))) ;;
              err ← Listen_enter user;
              match err with
              | Some e => panic (ErrorValue e)
              | None => mret (Streaming user)
              end
          end
        else
          user ← NewUser w r;
          let convoId := id1 in
          exists_ ← Room.IsConvo convoId;
          if negb exists_ then mret (Done None)
          else
            full ← Room.IsConvoFull convoId;
            if (full : bool) then mret (Done None)
            else
              res ← Room.JoinConvo user convoId;
              let '(user, err) := res in
              match err with
              | Some e => panic (ErrorValue e)
              | None =>
                  other ← Room.OtherUser convoId (User.UserId user);
                  emit (Write user other) ;;
                  err ← Listen_enter user;
                  match err with
                  | Some e => panic (ErrorValue e)
                  | None => mret (Streaming user)
                  end
              end
    | [_; convoId; messageId] =>
        exists_ ← Room.IsConvo convoId;
        if negb exists_ then mret (Done None)
        else
          allowed ← Room.IPExists convoId (GetIP (RemoteAddr r));
          if negb allowed then mret (Done None)
          else
            res ← Room.ReadMessage URL convoId messageId;
            let '(data, err) := res in
            match err with
            | Some e => panic (ErrorValue e)
            | None => mret (Done (Some data))
            end
    | _ => mret (Done None)
    end.

(** [func PUT(w http.ResponseWriter, r *http.Request, ids []string)] *)
Definition PUT (now : clock) (w : ResponseWriter) (r : Request)
    (ids : list string) : M reply :=
  match ids with
  | [_; convoId] =>
      exists_ ← Room.IsConvo convoId;
      if negb exists_ then mret (Done None)
      else
        allowed ← Room.IPExists convoId (GetIP (RemoteAddr r));
        if negb allowed then mret (Done None)
        else
          let '(data, err) := ReadAll r in
          match err with
          | Some e => panic (ErrorValue e)
          | None =>
              err ← Room.AddMessage URL now data convoId (GetIP (RemoteAddr r));
              match err with
              | Some e => panic (ErrorValue e)
              | None => mret (Done None)
              end
          end
  | _ => mret (Done None)
  end.

(** The function [main] hands to [mux.HandleFunc]: the switch on
    [r.Method], with [ids] the path split at its slashes. *)
Definition handle (method : string) (now : clock) (w : ResponseWriter)
    (r : Request) (ids : list string) : M reply :=
  if String.eqb method "GET" then GET now w r ids
  else if String.eqb method "PUT" then PUT now w r ids
  else mret (Done None).

(** The status line [net/http] sends for a handler's outcome: 200 when
    the handler returns or streams, since the handlers never call
    [WriteHeader]; none when the handler panics or never gets the mutex. *)
Definition status {A} (o : outcome A) : option Z :=
  match o with
  | Ret _ _ => Some 200
  | Panic _ _ => None
  | Blocked _ => None
  end.

(** A request rejected with a status outside 200..299. *)
Definition rejected {A} (o : outcome A) : Prop :=
  exists code, status o = Some code /\ ~ (200 <= code < 300).
End Handlers.

(** ** util.go: the loop of [Listen] and the goroutine beside it

    The two goroutines of [func (u *User) Listen() error] once the flusher
    has been obtained, as a labelled transition system. A send and its
    receive on an unbuffered channel are one joint step; a nil channel is
    never ready, so no step sends on it or receives from it; a receive from
    a closed channel is always ready and yields the zero value. *)

Module ListenLoop.

(** Where the caller of [Listen] stands. *)
Inductive loop_pc : Type :=
| AtSelect                        (* for { select { ... } } *)
| Returned (err : option error).  (* return nil *)

(** Where the goroutine started by [Listen] stands. *)
Inductive cleaner_pc : Type :=
| AtNotify       (* <-notify *)
| AtDeleteUser   (* Store.DeleteUser(u.ConvoId, u.UserId) *)
| AtStopSend     (* u.Stop <- struct{}{} *)
| AtClose        (* close(u.Pipe) *)
| Finished.

Record conn : Type := mk {
  user : User.t;
  loop : loop_pc;
  cleaner : cleaner_pc;
  client_gone : bool;      (* the client has closed the connection *)
  pipe_closed : bool;      (* close(u.Pipe) has run *)
  written : list bytes     (* the events written to u.Writer and flushed *)
}.

(** [Listen] has set the headers and started the goroutine. *)
Definition start (u : User.t) : conn :=
  mk u AtSelect AtNotify false false [].

Inductive label : Type :=
| ClientCloses
| Notified
| CallDeleteUser (convoId : string) (userId : Z)
| StopRendezvous (ch : chan)      (* the goroutine's send meets case <-u.Stop *)
| StopFromElsewhere (ch : chan)   (* another goroutine's send meets it *)
| ClosePipe
| Forward (data : bytes)          (* case data := <-u.Pipe, from a sender *)
| ForwardClosed.                  (* case data := <-u.Pipe, on the closed pipe *)

Inductive step : conn -> label -> conn -> Prop :=
| step_client u l g pc wr :
    step (mk u l g false pc wr) ClientCloses (mk u l g true pc wr)
| step_notify u l pc wr :
    step (mk u l AtNotify true pc wr) Notified (mk u l AtDeleteUser true pc wr)
| step_delete u l cg pc wr :
    step (mk u l AtDeleteUser cg pc wr)
         (CallDeleteUser (User.ConvoId u) (User.UserId u))
         (mk u l AtStopSend cg pc wr)
| step_stop u ch cg pc wr :
    User.Stop u = Some ch ->
    step (mk u AtSelect AtStopSend cg pc wr)
         (StopRendezvous ch)
         (mk u (Returned None) AtClose cg pc wr)
| step_stop_elsewhere u ch g cg pc wr :
    User.Stop u = Some ch ->
    step (mk u AtSelect g cg pc wr)
         (StopFromElsewhere ch)
         (mk u (Returned None) g cg pc wr)
| step_close u l cg wr :
    step (mk u l AtClose cg false wr) ClosePipe (mk u l Finished cg true wr)
| step_forward u g cg wr data :
    step (mk u AtSelect g cg false wr) (Forward data)
         (mk u AtSelect g cg false (wr ++ [data]))
| step_forward_closed u g cg wr :
    step (mk u AtSelect g cg true wr) ForwardClosed
         (mk u AtSelect g cg true (wr ++ [nil_bytes])).

(** Runs: the labels passed from one state to another, oldest first. *)
Inductive run : conn -> list label -> conn -> Prop :=
| run_nil c : run c [] c
| run_snoc c ls c' l c'' : run c ls c' -> step c' l c'' -> run c (ls ++ [l]) c''.

(** The stop signal has been raised and taken by the loop. *)
Definition stop_consumed (ls : list label) : Prop :=
  exists ch, StopRendezvous ch ∈ ls \/ StopFromElsewhere ch ∈ ls.

End ListenLoop.

(** ** Vocabulary of the statements *)

(** The marker that opens a new-message notification: a space for the
    party the message came from, a plus sign for the other one. *)
Definition marker (user : User.t) (ip : string) : string :=
  if decide (User.IP user = ip) then " " else "+".

(** The link to a message of a conversation. *)
Definition message_link (URL convoId messageId : string) : string :=
  URL +:+ convoId +:+ "/" +:+ messageId.

(** The world with its registry map and its trace replaced; the mutex is
    free. *)
Definition at_rest (m : gmap string Convo.t) (tr : list event) (w : world)
  : world :=
  mkWorld (mkRoom false m) (next_chan w) tr.

(** A conversation with its slots or its messages replaced. *)
Definition with_Users (us : slots) (c : Convo.t) : Convo.t :=
  Convo.mk (Convo.ConvoId c) us (Convo.Messages c) (Convo.Stop c).

Definition with_Messages (ms : gmap string bytes) (c : Convo.t) : Convo.t :=
  Convo.mk (Convo.ConvoId c) (Convo.Users c) ms (Convo.Stop c).

(** How [Listen] starts for a user, as the handlers see it. *)
Definition listen_outcome (user : User.t) (w : world) : outcome reply :=
  if Flusher (User.Writer user) then
    if CloseNotifier (User.Writer user) then Ret (Streaming user) w
    else Panic (RuntimeError "interface conversion") w
  else Panic (ErrorValue "couldn't get flusher") w.

(** The call is left waiting for the mutex. *)
Definition waits {A} (o : outcome A) : bool :=
  match o with Blocked _ => true | _ => false end.

(** What a request with path [ids] leaves alone going from [w] to [w']: the
    mutex is free again, and every conversation of [w] other than the one
    the path names is in [w'] as it was. *)
Definition untouched (ids : list string) (w w' : world) : Prop :=
  mu (Store w') = false /\
  forall id c, ids !! 1%nat <> Some id ->
    Convos (Store w) !! id = Some c -> Convos (Store w') !! id = Some c.

(** The invariant of the registry map: every conversation in it has an
    occupied slot. *)
Definition occupied (m : gmap string Convo.t) : Prop :=
  forall id c, m !! id = Some c -> (1 <= occupancy (Convo.Users c))%nat.

(** A call of one of the registry's methods, with its arguments. *)
Inductive call : Type :=
| CallIPExists (convoId ip : string)
| CallOtherUser (convoId : string) (userId : Z)
| CallDeleteUser (convoId : string) (userId : Z)
| CallReadMessage (convoId messageId : string)
| CallAddMessage (now : clock) (data : bytes) (convoId ip : string)
| CallJoinConvo (user : User.t) (convoId : string)
| CallCreateConvo (now : clock) (user : User.t)
| CallIsConvo (convoId : string)
| CallIsConvoFull (convoId : string).

(** The world a call leaves behind, however it ends. *)
Definition after (URL : string) (k : call) (w : world) : world :=
  match k with
  | CallIPExists convoId ip => final (Room.IPExists convoId ip w)
  | CallOtherUser convoId userId => final (Room.OtherUser convoId userId w)
  | CallDeleteUser convoId userId => final (Room.DeleteUser convoId userId w)
  | CallReadMessage convoId messageId =>
      final (Room.ReadMessage URL convoId messageId w)
  | CallAddMessage now data convoId ip =>
      final (Room.AddMessage URL now data convoId ip w)
  | CallJoinConvo user convoId => final (Room.JoinConvo user convoId w)
  | CallCreateConvo now user => final (Room.CreateConvo now user w)
  | CallIsConvo convoId => final (Room.IsConvo convoId w)
  | CallIsConvoFull convoId => final (Room.IsConvoFull convoId w)
  end.

(** [Store = &Room{Convos: make(map[string]*Convo, 0)}], before any call. *)
Definition initial (n : chan) : world := mkWorld (mkRoom false ∅) n [].

(** The worlds the registry can be in: the initial one, and the ones left
    by any call, with any arguments, made in such a world. *)
Inductive reachable (URL : string) : world -> Prop :=
| reach_initial n : reachable URL (initial n)
| reach_call w k : reachable URL w -> reachable URL (after URL k w).

(** Every stored message is a slice with contents, never the nil slice. *)
Definition stored_bytes (m : gmap string Convo.t) : Prop :=
  forall id c messageId,
    m !! id = Some c -> Convo.Messages c !! messageId <> Some nil_bytes.

(** The calls as the program makes them: [AddMessage] is only called by
    [PUT], with the slice [ioutil.ReadAll] returned, which is not nil. *)
Definition from_handler (k : call) : Prop :=
  match k with
  | CallAddMessage _ data _ _ => data <> nil_bytes
  | _ => True
  end.

(** The worlds of the running server: the initial one, and the ones left
    by the calls the program makes, in any order. *)
Inductive served (URL : string) : world -> Prop :=
| served_initial n : served URL (initial n)
| served_call w k : served URL w -> from_handler k -> served URL (after URL k w).

(** ** A sample registry

    One conversation, ["42"], with both parties attached and one unread
    message, and the same conversation after the second party has left. *)

Definition sample_URL : string := "https://localhost:8080/".

Definition alice : User.t :=
  User.mk 1%positive None "10.0.0.1" 0 "42" (mkWriter true true).

Definition bob : User.t :=
  User.mk 3%positive None "10.0.0.2" 1 "42" (mkWriter true true).

(** A third party from another address, not yet attached. *)
Definition carol : User.t :=
  User.mk 4%positive None "10.0.0.3" 0 "" (mkWriter true true).

Definition sample_convo : Convo.t :=
  Convo.mk "42" (Some alice, Some bob) {["7" := Bytes "hi"]} 2%positive.

Definition sample_world : world :=
  mkWorld (mkRoom false {["42" := sample_convo]}) 5%positive [].

Definition lonely_convo : Convo.t :=
  Convo.mk "42" (Some alice, None) {["7" := Bytes "hi"]} 2%positive.

Definition lonely_world : world :=
  mkWorld (mkRoom false {["42" := lonely_convo]}) 5%positive [].

(** A clock reading, requests made with curl, and a stand-in for
    [net.SplitHostPort] on addresses of the form host:port. *)
Definition sample_clock : clock := ("2017-06-01T12:00:00Z", None).

Definition curl_from (addr body : string) : Request :=
  mkRequest "curl/7.54.0" addr body None.

Fixpoint split_colon (addr : string) : string * string :=
  match addr with
  | EmptyString => ("", "")
  | String ch rest =>
      if Ascii.eqb ch ":" then ("", rest)
      else let '(host, port) := split_colon rest in (String ch host, port)
  end.

Definition sample_SplitHostPort (addr : string)
  : string * string * option error :=
  (split_colon addr, None).

(** The same registry built by calls: the first party creates the
    conversation, the second joins and writes. *)
Definition sample_id : string := fst (NewId sample_clock nil_bytes).

Definition served_world : world :=
  after sample_URL
    (CallAddMessage sample_clock (Bytes "hello") sample_id "10.0.0.2")
    (after sample_URL
       (CallJoinConvo (User.mk 2%positive None "10.0.0.2" 0 "" (mkWriter true true))
                      sample_id)
       (after sample_URL
          (CallCreateConvo sample_clock
             (User.mk 1%positive None "10.0.0.1" 0 "" (mkWriter true true)))
          (initial 3%positive))).

Definition sample_message : string := fst (NewId sample_clock (Bytes "hello")).

(** The second party writes the same body again within the same clock
    reading. *)
Definition sample_put : M reply :=
  PUT sample_URL sample_SplitHostPort sample_clock (mkWriter true true)
      (curl_from "10.0.0.2:5000" "hello") [""; sample_id].

(** The first party's request that creates a conversation. *)
Definition sample_create : M reply :=
  handle sample_URL "<html>" sample_SplitHostPort "GET" sample_clock
         (mkWriter true true) (curl_from "10.0.0.1:4000" "") [""; ""].

(** The four requests of a whole exchange, from the empty registry: the
    first party creates, the second joins, the second writes, the first
    reads. *)
Definition sample_request (method addr body : string) (ids : list string)
  : M reply :=
  handle sample_URL "<html>" sample_SplitHostPort method sample_clock
         (mkWriter true true) (curl_from addr body) ids.

Definition exchange : outcome reply :=
  sample_request "GET" "10.0.0.1:4000" "" [""; sample_id; sample_message]
    (final (sample_request "PUT" "10.0.0.2:5000" "hello" [""; sample_id]
       (final (sample_request "GET" "10.0.0.2:5000" "" [""; sample_id]
          (final (sample_request "GET" "10.0.0.1:4000" "" [""; ""]
             (initial 1%positive))))))).

(** ** main.go: routing, and more vocabulary *)

(** [strings.Split(path, "/")] of the standard library: the pieces between
    the slashes, one piece for a path without a slash. *)
Fixpoint split_slash (path : string) : list string :=
  match path with
  | EmptyString => [""]
  | String ch rest =>
      if Ascii.eqb ch "/" then "" :: split_slash rest
      else match split_slash rest with
           | piece :: pieces => String ch piece :: pieces
           | [] => [String ch ""]
           end
  end.

(** The function [main] hands to [mux.HandleFunc], from the path of the
    request: [ids := strings.Split(r.URL.Path, "/")], then the switch on
    the method. *)
Definition route (URL PAGE : string)
    (SplitHostPort : string -> string * string * option error)
    (method path : string) (now : clock) (w : ResponseWriter) (r : Request)
  : M reply :=
  handle URL PAGE SplitHostPort method now w r (split_slash path).

(** A decimal digit, and a string of decimal digits. *)
Definition is_digit (ch : ascii) : bool :=
  (48 <=? N_of_ascii ch)%N && (N_of_ascii ch <=? 57)%N.

Fixpoint all_digits (s : string) : bool :=
  match s with
  | EmptyString => true
  | String ch rest => is_digit ch && all_digits rest
  end.

(** Every conversation of the map is filed under its own id, and every
    user in a slot carries the key and the index of its slot: what the
    goroutine of [Listen] passes to [DeleteUser]. *)
Definition addressed (m : gmap string Convo.t) : Prop :=
  forall id c, m !! id = Some c ->
    Convo.ConvoId c = id /\
    forall i u, slot_get (Convo.Users c) i = Some (Some u) ->
      User.ConvoId u = id /\ User.UserId u = i.

(** A user whose [Stop] channel has been made. *)
Definition dave : User.t :=
  User.mk 1%positive (Some 9%positive) "10.0.0.4" 0 "42" (mkWriter true true).

(** The world after [NewUser] has made a pipe. *)
Definition piped (w : world) : world :=
  mkWorld (Store w) (Pos.succ (next_chan w)) (trace w).

(** The conversation [CreateConvo] makes for a creator on pipe [n]. *)
Definition created (convoId ip : string) (wr : ResponseWriter) (n : chan)
  : Convo.t :=
  Convo.mk convoId (Some (User.mk n None ip 0 convoId wr), None) ∅ (Pos.succ n).

(** Some occupant of the conversation has the IP of the request. *)
Definition authorized (SplitHostPort : string -> string * string * option error)
    (r : Request) (c : Convo.t) : Prop :=
  exists u, u ∈ occupants (Convo.Users c) /\
            User.IP u = GetIP SplitHostPort (RemoteAddr r).

(** The data the senders handed to the loop of [Listen], oldest first. *)
Fixpoint forwarded (ls : list ListenLoop.label) : list bytes :=
  match ls with
  | [] => []
  | ListenLoop.Forward data :: ls => data :: forwarded ls
  | _ :: ls => forwarded ls
  end.

(** How often the goroutine of [Listen] has called [Store.DeleteUser]. *)
Fixpoint deletes (ls : list ListenLoop.label) : nat :=
  match ls with
  | [] => 0%nat
  | ListenLoop.CallDeleteUser _ _ :: ls => S (deletes ls)
  | _ :: ls => deletes ls
  end.

(** The number of slashes of a path. *)
Fixpoint slashes (path : string) : nat :=
  match path with
  | EmptyString => 0%nat
  | String ch rest => if Ascii.eqb ch "/" then S (slashes rest) else slashes rest
  end.

(** * Properties *)

(** ** Properties of util.go *)

Lemma wrap64_id z : int64_range z -> wrap64 z = z.
Proof.
  unfold int64_range, wrap64. intros Hz.
  rewrite Z.mod_small by lia. lia.
Qed.

(** Away from the ends of the range, [(^userId) + 2] is [1 - userId]. *)
Lemma OtherUserId_sub userId :
  int64_range (1 - userId) -> OtherUserId userId = 1 - userId.
Proof.
  intros Hrange. unfold OtherUserId.
  replace (Z.lnot userId + 2) with (1 - userId) by (unfold Z.lnot; lia).
  apply wrap64_id. exact Hrange.
Qed.

Lemma OtherUserId_0 : OtherUserId 0 = 1.
Proof. reflexivity. Qed.

Lemma OtherUserId_1 : OtherUserId 1 = 0.
Proof. reflexivity. Qed.

(** C10: on the slot indices 0 and 1, [OtherUserId userId] is [1 - userId],
    so it sends each slot to the other one and applying it twice gives the
    slot back. *)
Theorem OtherUserId_involution (userId : Z) :
  userId = 0 \/ userId = 1 ->
  OtherUserId userId = 1 - userId /\
  (OtherUserId userId = 0 \/ OtherUserId userId = 1) /\
  OtherUserId userId <> userId /\
  OtherUserId (OtherUserId userId) = userId.
Proof.
  intros [-> | ->]; cbn; repeat split; auto; lia.
Qed.

(** The statement above for slot 1. *)
Lemma OtherUserId_involution_witness :
  (1 = 0 \/ 1 = 1) /\
  OtherUserId 1 = 1 - 1 /\
  (OtherUserId 1 = 0 \/ OtherUserId 1 = 1) /\
  OtherUserId 1 <> 1 /\
  OtherUserId (OtherUserId 1) = 1.
Proof.
  split; [right; reflexivity | apply (OtherUserId_involution 1); right; reflexivity].
Defined.

(** ** Properties of convo.go *)

Lemma inbox_app ch tr1 tr2 : inbox ch (tr1 ++ tr2) = inbox ch tr1 ++ inbox ch tr2.
Proof.
  induction tr1 as [|e tr1 IH]; [reflexivity|].
  destruct e; cbn; try apply IH.
  case_decide; cbn; [f_equal|]; apply IH.
Qed.

(** The sends [Broadcast] makes: one per occupant, slot 0 first. *)
Lemma Broadcast_sends c data :
  fst (Convo.Broadcast c data) =
  map (fun u => Send (User.Pipe u) data) (occupants (Convo.Users c)).
Proof.
  unfold Convo.Broadcast. destruct (Convo.Users c) as [[u0|] [u1|]]; reflexivity.
Qed.

Lemma Broadcast_error c data :
  snd (Convo.Broadcast c data) =
  match Convo.Users c with
  | (None, None) => Some "no users in conversation"
  | _ => None
  end.
Proof.
  unfold Convo.Broadcast. destruct (Convo.Users c) as [[u0|] [u1|]]; reflexivity.
Qed.

(** C9: [Broadcast] returns an error exactly when neither slot is occupied,
    and then sends nothing; otherwise it returns no error and sends the data
    once to each occupied slot. *)
Theorem Broadcast_spec (c : Convo.t) (data : bytes) :
  (is_Some (snd (Convo.Broadcast c data)) <-> Convo.Users c = (None, None)) /\
  (snd (Convo.Broadcast c data) =
     if decide (Convo.Users c = (None, None))
     then Some "no users in conversation" else None) /\
  (fst (Convo.Broadcast c data) =
     if decide (Convo.Users c = (None, None))
     then []
     else map (fun u => Send (User.Pipe u) data) (occupants (Convo.Users c))) /\
  (forall u, u ∈ occupants (Convo.Users c) ->
     Send (User.Pipe u) data ∈ fst (Convo.Broadcast c data)).
Proof.
  rewrite Broadcast_sends, Broadcast_error.
  repeat split.
  - destruct (Convo.Users c) as [[u0|] [u1|]]; intros [e He]; congruence.
  - intros ->. eauto.
  - destruct (Convo.Users c) as [[u0|] [u1|]]; reflexivity.
  - destruct (Convo.Users c) as [[u0|] [u1|]]; reflexivity.
  - intros u Hu.
    apply (list_elem_of_fmap_2 (fun u => Send (User.Pipe u) data)); exact Hu.
Qed.

Lemma CreateMessage_spec now c data :
  Convo.CreateMessage now c data =
  match NewId now data with
  | (_, Some err) => (c, ("", Some err))
  | (messageId, None) =>
      if Convo.Messages c !! messageId is Some _
      then (c, ("", Some "message id overwrite"))
      else (with_Messages (<[messageId := data]> (Convo.Messages c)) c,
            (messageId, None))
  end.
Proof.
  unfold Convo.CreateMessage. destruct (NewId now data) as [messageId [err|]]; [done|].
  destruct (Convo.Messages c !! messageId); reflexivity.
Qed.

Lemma notify_marker URL c ip messageId u :
  Convo.notify URL c ip messageId u =
  [Send (User.Pipe u)
     (Bytes (marker u ip +:+ " " +:+ message_link URL (Convo.ConvoId c) messageId))].
Proof.
  unfold Convo.notify, marker, message_link, Write. case_decide; reflexivity.
Qed.

(** [AddMessage] in closed form. *)
Lemma AddMessage_eq URL now c data ip :
  Convo.AddMessage URL now c data ip =
  match NewId now data with
  | (_, Some err) => (c, [], Some err)
  | (messageId, None) =>
      if Convo.Messages c !! messageId is Some _
      then (c, [], Some "message id overwrite")
      else (with_Messages (<[messageId := data]> (Convo.Messages c)) c,
            map (fun u =>
                   Send (User.Pipe u)
                     (Bytes (marker u ip +:+ " " +:+
                             message_link URL (Convo.ConvoId c) messageId)))
                (occupants (Convo.Users c)),
            None)
  end.
Proof.
  unfold Convo.AddMessage. rewrite CreateMessage_spec.
  destruct (NewId now data) as [messageId [err|]]; [done|].
  destruct (Convo.Messages c !! messageId) as [old|]; [done|].
  unfold with_Messages, occupants; cbn [Convo.Users fst snd].
  destruct (Convo.Users c) as [[u0|] [u1|]]; cbn [fst snd];
    rewrite ?notify_marker; reflexivity.
Qed.

(** C5: [AddMessage] generates the message id from the clock with the data
    as salt. If the id is already a key of the message map it returns the
    collision error, the conversation is unchanged and nobody is notified.
    Otherwise the data is stored under the id and each occupied slot, slot 0
    first, is sent the marker, a space and the link to the message; the
    marker is a space for a slot whose IP is the origin and a plus sign for
    any other. *)
Theorem AddMessage_spec (URL : string) (now : clock) (c : Convo.t)
    (data : bytes) (ip messageId : string) :
  NewId now data = (messageId, None) ->
  let notice u :=
    Send (User.Pipe u)
      (Bytes (marker u ip +:+ " " +:+
              message_link URL (Convo.ConvoId c) messageId)) in
  (is_Some (Convo.Messages c !! messageId) ->
   Convo.AddMessage URL now c data ip = (c, [], Some "message id overwrite")) /\
  (Convo.Messages c !! messageId = None ->
   exists c',
     Convo.AddMessage URL now c data ip =
       (c', map notice (occupants (Convo.Users c)), None) /\
     Convo.Messages c' = <[messageId := data]> (Convo.Messages c) /\
     Convo.Users c' = Convo.Users c /\
     forall u, u ∈ occupants (Convo.Users c) ->
       notice u ∈ map notice (occupants (Convo.Users c)) /\
       (marker u ip = " " <-> User.IP u = ip) /\
       (marker u ip = "+" <-> User.IP u <> ip)).
Proof.
  intros Hid notice. rewrite AddMessage_eq, Hid. split.
  - intros [old Hold]. rewrite Hold. reflexivity.
  - intros Hfree. rewrite Hfree. eexists. split; [reflexivity|].
    split; [reflexivity|]. split; [reflexivity|].
    intros u Hu. split; [apply (list_elem_of_fmap_2 notice); exact Hu|].
    unfold marker. case_decide; split; split; intros; congruence.
Qed.

(** The statement above for a write of the second party in the sample
    conversation. *)
Lemma AddMessage_spec_witness :
  exists c',
    Convo.AddMessage sample_URL sample_clock sample_convo (Bytes "hello")
      "10.0.0.2" =
    (c',
     [Send 1%positive
        (Bytes ("+ https://localhost:8080/42/" +:+ sample_message));
      Send 3%positive
        (Bytes ("  https://localhost:8080/42/" +:+ sample_message))],
     None) /\
    Convo.Messages c' =
      <[sample_message := Bytes "hello"]> (Convo.Messages sample_convo).
Proof.
  destruct (AddMessage_spec sample_URL sample_clock sample_convo (Bytes "hello")
              "10.0.0.2" sample_message eq_refl) as [_ Hfree].
  destruct (Hfree eq_refl) as (c' & Hadd & Hmsgs & _).
  exists c'. split; [exact Hadd | exact Hmsgs].
Defined.

(** ** Running the registry's methods *)

Lemma at_rest_id w :
  mu (Store w) = false -> at_rest (Convos (Store w)) (trace w) w = w.
Proof. destruct w as [[m cs] n tr]; cbn; intros ->; reflexivity. Qed.

(** Unfolds the monad down to matches on worlds. *)
Ltac unfold_M :=
  unfold mbind, M_bind, mret, M_ret, defer, Lock, Unlock, emit, make_chan,
    convo, put_convo, delete_convo, user_slot, deref_user, panic,
    set_mu, set_Convos, at_rest;
  cbn [Store mu Convos next_chan trace].

(** Runs a method from a world whose mutex is free. *)
Ltac run_from w Hmu :=
  destruct w as [[m cs] n tr]; cbn [Store mu Convos next_chan trace] in *;
  subst m; unfold_M.

Lemma IsConvo_run convoId w :
  mu (Store w) = false ->
  Room.IsConvo convoId w =
  Ret (bool_decide (is_Some (Convos (Store w) !! convoId))) w.
Proof. intros Hmu. unfold Room.IsConvo. run_from w Hmu. reflexivity. Qed.

Lemma IsConvoFull_run convoId c w :
  mu (Store w) = false ->
  Convos (Store w) !! convoId = Some c ->
  Room.IsConvoFull convoId w =
  Ret (match Convo.Users c with (Some _, Some _) => true | _ => false end) w.
Proof.
  intros Hmu Hc. unfold Room.IsConvoFull. run_from w Hmu. rewrite Hc.
  destruct (Convo.Users c) as [[u0|] [u1|]]; reflexivity.
Qed.

Lemma IPExists_run convoId ip c w :
  mu (Store w) = false ->
  Convos (Store w) !! convoId = Some c ->
  Room.IPExists convoId ip w =
  Ret (Room.has_ip (fst (Convo.Users c)) ip || Room.has_ip (snd (Convo.Users c)) ip) w.
Proof.
  intros Hmu Hc. unfold Room.IPExists. run_from w Hmu. rewrite Hc.
  destruct (Room.has_ip (fst (Convo.Users c)) ip); [reflexivity|].
  destruct (Room.has_ip (snd (Convo.Users c)) ip); reflexivity.
Qed.

Lemma has_ip_occupants us ip :
  Room.has_ip (fst us) ip || Room.has_ip (snd us) ip = true <->
  exists u, u ∈ occupants us /\ User.IP u = ip.
Proof.
  assert (Hin : forall s, Room.has_ip s ip = true <->
            exists u, u ∈ (match s with Some u => [u] | None => [] end) /\
                      User.IP u = ip).
  { intros [u|]; cbn.
    - rewrite bool_decide_eq_true. split.
      + intros H. exists u. split; [apply list_elem_of_here | exact H].
      + intros (u' & Hu' & H). apply list_elem_of_singleton in Hu'. congruence.
    - split; [discriminate|]. intros (u' & Hu' & _). inversion Hu'. }
  unfold occupants. rewrite orb_true_iff, !Hin. split.
  - intros [(u & Hu & H) | (u & Hu & H)]; exists u; rewrite elem_of_app; auto.
  - intros (u & Hu & H). apply elem_of_app in Hu as [Hu|Hu]; eauto.
Qed.

Lemma OtherUser_run convoId userId c u w :
  mu (Store w) = false ->
  Convos (Store w) !! convoId = Some c ->
  slot_get (Convo.Users c) (OtherUserId userId) = Some (Some u) ->
  Room.OtherUser convoId userId w = Ret (Bytes ("> " +:+ User.IP u)) w.
Proof.
  intros Hmu Hc Hu. unfold Room.OtherUser. run_from w Hmu. rewrite Hc, Hu.
  reflexivity.
Qed.

Lemma ReadMessage_run URL convoId messageId c w :
  mu (Store w) = false ->
  Convos (Store w) !! convoId = Some c ->
  Room.ReadMessage URL convoId messageId w =
  let rest tr :=
    at_rest (<[convoId := with_Messages (delete messageId (Convo.Messages c)) c]>
               (Convos (Store w))) tr w in
  if is_nil (Convo.ReadMessage c messageId)
  then Ret (nil_bytes, Some "message doesn't exist") (rest (trace w))
  else Ret (Convo.ReadMessage c messageId, None)
           (rest (trace w ++
                  map (fun u => Send (User.Pipe u)
                                  (Bytes ("- " +:+ message_link URL convoId messageId)))
                      (occupants (Convo.Users c)))).
Proof.
  intros Hmu Hc. unfold Room.ReadMessage. run_from w Hmu. rewrite Hc.
  destruct (is_nil (Convo.ReadMessage c messageId));
    repeat (cbn [Store mu Convos next_chan trace]; rewrite ?Hc, ?Broadcast_sends);
    reflexivity.
Qed.

Lemma AddMessage_run URL now data convoId ip c w :
  mu (Store w) = false ->
  Convos (Store w) !! convoId = Some c ->
  Room.AddMessage URL now data convoId ip w =
  let '(c', evs, err) := Convo.AddMessage URL now c data ip in
  Ret err (at_rest (<[convoId := c']> (Convos (Store w))) (trace w ++ evs) w).
Proof.
  intros Hmu Hc. unfold Room.AddMessage. run_from w Hmu. rewrite Hc.
  destruct (Convo.AddMessage URL now c data ip) as [[c' evs] err]. reflexivity.
Qed.

(** The user as [JoinConvo] leaves it when it gives it slot [i]. *)
Lemma JoinConvo_run user convoId c w :
  mu (Store w) = false ->
  Convos (Store w) !! convoId = Some c ->
  Room.JoinConvo user convoId w =
  let named i := User.mk (User.Pipe user) (User.Stop user) (User.IP user) i
                         convoId (User.Writer user) in
  let joined i :=
    Ret (named i, None)
        (at_rest (<[convoId := with_Users (slot_set (Convo.Users c) i (Some (named i))) c]>
                    (Convos (Store w)))
                 (trace w ++
                  map (fun u => Send (User.Pipe u) (Bytes ("> " +:+ User.IP user)))
                      (occupants (Convo.Users c)))
                 w) in
  match Convo.Users c with
  | (None, Some _) => joined 0
  | (Some _, None) => joined 1
  | _ => Ret (named (User.UserId user), Some "this is bad") w
  end.
Proof.
  intros Hmu Hc. unfold Room.JoinConvo. run_from w Hmu. rewrite Hc.
  destruct (Convo.Users c) as [[u0|] [u1|]] eqn:Hus; cbn; try reflexivity;
    rewrite Broadcast_sends, Hus; reflexivity.
Qed.

Lemma DeleteUser_run convoId userId c u w :
  mu (Store w) = false ->
  Convos (Store w) !! convoId = Some c ->
  slot_get (Convo.Users c) userId = Some (Some u) ->
  Room.DeleteUser convoId userId w =
  match slot_get (Convo.Users c) (OtherUserId userId) with
  | Some (Some other) =>
      Ret () (at_rest (<[convoId := with_Users (slot_set (Convo.Users c) userId None) c]>
                         (Convos (Store w)))
                      (trace w ++ [Send (User.Pipe other) (Bytes ("< " +:+ User.IP u))])
                      w)
  | _ =>
      Ret () (at_rest (delete convoId (Convos (Store w)))
                      (trace w ++ [Println ("deleting " +:+ convoId);
                                   Signal (Convo.Stop c)])
                      w)
  end.
Proof.
  intros Hmu Hc Hu. unfold Room.DeleteUser. run_from w Hmu. rewrite Hc, Hu.
  unfold slot_get in Hu.
  destruct (Convo.Users c) as [s0 s1] eqn:Hus.
  destruct (Z.eqb_spec userId 0) as [-> | H0]; [| destruct (Z.eqb_spec userId 1) as [-> | H1]];
    try discriminate; cbn in Hu; injection Hu as ->; cbn.
  - destruct s1 as [u1|]; cbn.
    + reflexivity.
    + rewrite <- app_assoc. cbn. rewrite delete_insert_eq. reflexivity.
  - destruct s0 as [u0|]; cbn.
    + reflexivity.
    + rewrite <- app_assoc. cbn. rewrite delete_insert_eq. reflexivity.
Qed.

Lemma CreateConvo_run now user w :
  mu (Store w) = false ->
  Room.CreateConvo now user w =
  match NewId now nil_bytes with
  | (_, Some err) => Ret (user, ("", Some err)) w
  | (convoId, None) =>
      if Convos (Store w) !! convoId is Some _
      then Ret (user, ("", Some "convo id overwrite")) w
      else
        let user' := User.mk (User.Pipe user) (User.Stop user) (User.IP user) 0
                             convoId (User.Writer user) in
        Ret (user', (convoId, None))
            (mkWorld
               (mkRoom false
                  (<[convoId := Convo.mk convoId (Some user', None) ∅ (next_chan w)]>
                     (Convos (Store w))))
               (Pos.succ (next_chan w))
               (trace w ++ [GoPing convoId; Println ("creating " +:+ convoId)]))
  end.
Proof.
  intros Hmu. unfold Room.CreateConvo.
  destruct (NewId now nil_bytes) as [convoId [err|]]; [reflexivity|].
  run_from w Hmu. destruct (cs !! convoId); cbn; [reflexivity|].
  rewrite <- app_assoc. reflexivity.
Qed.

(** Every method takes the mutex first: while another goroutine holds it,
    the call waits and the world is as it was. *)
Lemma held_blocks w :
  mu (Store w) = true ->
  (forall convoId ip, Room.IPExists convoId ip w = Blocked w) /\
  (forall convoId userId, Room.OtherUser convoId userId w = Blocked w) /\
  (forall convoId userId, Room.DeleteUser convoId userId w = Blocked w) /\
  (forall convoId, Room.IsConvo convoId w = Blocked w) /\
  (forall convoId, Room.IsConvoFull convoId w = Blocked w) /\
  (forall user convoId, Room.JoinConvo user convoId w = Blocked w) /\
  (forall URL convoId messageId, Room.ReadMessage URL convoId messageId w = Blocked w) /\
  (forall URL now data convoId ip, Room.AddMessage URL now data convoId ip w = Blocked w).
Proof.
  intros Hmu.
  unfold Room.IPExists, Room.OtherUser, Room.DeleteUser, Room.IsConvo,
    Room.IsConvoFull, Room.JoinConvo, Room.ReadMessage, Room.AddMessage.
  unfold mbind, M_bind, Lock. rewrite Hmu. repeat split.
Qed.

(** ** Joining *)

(** C3: joining a conversation with exactly one occupied slot returns no
    error and puts the new user, with its slot index and the conversation
    id written into it, in the free slot; the only event is the join
    notice with the new party's IP sent to the party that was there, so a
    new party with a pipe of its own receives nothing. Joining a
    conversation with both slots occupied returns an error and leaves the
    world, both slots included, as it was. *)
Theorem JoinConvo_spec (user : User.t) (convoId : string) (c : Convo.t)
    (w : world) :
  mu (Store w) = false ->
  Convos (Store w) !! convoId = Some c ->
  let named i := User.mk (User.Pipe user) (User.Stop user) (User.IP user) i
                         convoId (User.Writer user) in
  let notice := Bytes ("> " +:+ User.IP user) in
  let joined i us prev :=
    let w' := at_rest (<[convoId := with_Users us c]> (Convos (Store w)))
                      (trace w ++ [Send (User.Pipe prev) notice]) w in
    Room.JoinConvo user convoId w = Ret (named i, None) w' /\
    (User.Pipe user <> User.Pipe prev ->
     inbox (User.Pipe user) (trace w') = inbox (User.Pipe user) (trace w)) /\
    inbox (User.Pipe prev) (trace w') = inbox (User.Pipe prev) (trace w) ++ [notice] in
  (forall prev, Convo.Users c = (Some prev, None) ->
     joined 1 (Some prev, Some (named 1)) prev) /\
  (forall prev, Convo.Users c = (None, Some prev) ->
     joined 0 (Some (named 0), Some prev) prev) /\
  (forall u0 u1, Convo.Users c = (Some u0, Some u1) ->
     Room.JoinConvo user convoId w =
       Ret (named (User.UserId user), Some "this is bad") w).
Proof.
  intros Hmu Hc named notice joined.
  pose proof (JoinConvo_run user convoId c w Hmu Hc) as Hrun. cbv zeta in Hrun.
  assert (Hinbox : forall ch prev,
            inbox ch (trace w ++ [Send (User.Pipe prev) notice]) =
            inbox ch (trace w) ++
            (if decide (User.Pipe prev = ch) then [notice] else [])).
  { intros ch prev. rewrite inbox_app. cbn. case_decide; reflexivity. }
  assert (Hjoined : forall i us prev,
            Room.JoinConvo user convoId w =
              Ret (named i, None)
                  (at_rest (<[convoId := with_Users us c]> (Convos (Store w)))
                           (trace w ++ [Send (User.Pipe prev) notice]) w) ->
            joined i us prev).
  { intros i us prev Hret. unfold joined. cbn [trace at_rest].
    rewrite !Hinbox. repeat split.
    - exact Hret.
    - intros Hne. rewrite decide_False by congruence. apply app_nil_r.
    - rewrite decide_True by reflexivity. reflexivity. }
  split; [|split].
  - intros prev Hus. apply Hjoined. rewrite Hrun, Hus. reflexivity.
  - intros prev Hus. apply Hjoined. rewrite Hrun, Hus. reflexivity.
  - intros u0 u1 Hus. rewrite Hrun, Hus. reflexivity.
Qed.

(** The statement above for a third party joining the conversation with
    one party, and the full one. *)
Lemma JoinConvo_spec_witness :
  Room.JoinConvo carol "42" lonely_world =
  Ret (User.mk 4%positive None "10.0.0.3" 1 "42" (mkWriter true true), None)
      (at_rest
         (<["42" := with_Users
                      (Some alice,
                       Some (User.mk 4%positive None "10.0.0.3" 1 "42" (mkWriter true true)))
                      lonely_convo]> (Convos (Store lonely_world)))
         [Send 1%positive (Bytes "> 10.0.0.3")]
         lonely_world) /\
  Room.JoinConvo carol "42" sample_world =
  Ret (User.mk 4%positive None "10.0.0.3" 0 "42" (mkWriter true true),
       Some "this is bad") sample_world.
Proof.
  split.
  - pose proof (JoinConvo_spec carol "42" lonely_convo lonely_world eq_refl eq_refl)
      as [Hone _].
    exact (proj1 (Hone alice eq_refl)).
  - pose proof (JoinConvo_spec carol "42" sample_convo sample_world eq_refl eq_refl)
      as (_ & _ & Hfull).
    exact (Hfull alice bob eq_refl).
Defined.

(** ** Leaving *)

(** C6: removing the user of an occupied slot. If the other slot is
    occupied, the call returns with the slot emptied, the other slot and the
    messages as they were, the conversation still in the registry, and one
    event: the leave notice with the departing party's IP sent to the
    remaining party. If the other slot is empty, the call returns with the
    conversation deleted from the registry and the stop signal sent to its
    keepalive goroutine. Either way the whole change is made by one call
    that takes the free mutex and gives it back on return; while the mutex
    is held by another goroutine the call waits and nothing changes. *)
Theorem DeleteUser_spec (convoId : string) (userId : Z) (c : Convo.t)
    (u : User.t) (w : world) :
  Convos (Store w) !! convoId = Some c ->
  slot_get (Convo.Users c) userId = Some (Some u) ->
  (mu (Store w) = true -> Room.DeleteUser convoId userId w = Blocked w) /\
  (mu (Store w) = false ->
   (forall other,
      slot_get (Convo.Users c) (OtherUserId userId) = Some (Some other) ->
      let us := slot_set (Convo.Users c) userId None in
      let w' := at_rest (<[convoId := with_Users us c]> (Convos (Store w)))
                        (trace w ++ [Send (User.Pipe other)
                                       (Bytes ("< " +:+ User.IP u))]) w in
      Room.DeleteUser convoId userId w = Ret () w' /\
      Convos (Store w') !! convoId = Some (with_Users us c) /\
      slot_get us userId = Some None /\
      slot_get us (OtherUserId userId) = Some (Some other)) /\
   (slot_get (Convo.Users c) (OtherUserId userId) = Some None ->
      let w' := at_rest (delete convoId (Convos (Store w)))
                        (trace w ++ [Println ("deleting " +:+ convoId);
                                     Signal (Convo.Stop c)]) w in
      Room.DeleteUser convoId userId w = Ret () w' /\
      Convos (Store w') !! convoId = None /\
      (forall id, id <> convoId ->
         Convos (Store w') !! id = Convos (Store w) !! id))).
Proof.
  intros Hc Hu. split.
  - intros Hmu. apply (held_blocks w Hmu).
  - intros Hmu.
    pose proof (DeleteUser_run convoId userId c u w Hmu Hc Hu) as Hrun.
    assert (Hid : userId = 0 \/ userId = 1).
    { unfold slot_get in Hu.
      destruct (Z.eqb_spec userId 0); [auto|].
      destruct (Z.eqb_spec userId 1); [auto|discriminate]. }
    split.
    + intros other Hother us w'. rewrite Hother in Hrun.
      repeat split.
      * exact Hrun.
      * apply lookup_insert_eq.
      * destruct Hid as [-> | ->]; reflexivity.
      * destruct Hid as [-> | ->]; destruct (Convo.Users c); exact Hother.
    + intros Hother w'. rewrite Hother in Hrun.
      repeat split.
      * exact Hrun.
      * apply lookup_delete_eq.
      * intros id Hne. cbn. apply lookup_delete_ne. congruence.
Qed.

(** The statement above for the second party leaving the full
    conversation, and the first party leaving it alone. *)
Lemma DeleteUser_spec_witness :
  Room.DeleteUser "42" 1 sample_world =
  Ret () (at_rest (<["42" := with_Users (Some alice, None) sample_convo]>
                     (Convos (Store sample_world)))
                  [Send 1%positive (Bytes "< 10.0.0.2")]
                  sample_world) /\
  Room.DeleteUser "42" 0 lonely_world =
  Ret () (at_rest (delete "42" (Convos (Store lonely_world)))
                  [Println "deleting 42"; Signal 2%positive]
                  lonely_world).
Proof.
  split.
  - pose proof (DeleteUser_spec "42" 1 sample_convo bob sample_world
                  eq_refl eq_refl) as [_ Hfree].
    destruct (Hfree eq_refl) as [Hstay _].
    exact (proj1 (Hstay alice eq_refl)).
  - pose proof (DeleteUser_spec "42" 0 lonely_convo alice lonely_world
                  eq_refl eq_refl) as [_ Hfree].
    destruct (Hfree eq_refl) as [_ Hlast].
    exact (proj1 (Hlast eq_refl)).
Defined.

(** ** Running the handlers *)

Lemma bind_Ret {A B} (m : M A) (f : A -> M B) w a w' :
  m w = Ret a w' -> (m ≫= f) w = f a w'.
Proof. intros H. unfold mbind, M_bind. rewrite H. reflexivity. Qed.

Lemma is_Some_lookup {V} (o : option V) :
  bool_decide (is_Some o) = if o is Some _ then true else false.
Proof. destruct o; reflexivity. Qed.

Lemma PUT_run URL shp now wr r x convoId w :
  mu (Store w) = false ->
  PUT URL shp now wr r [x; convoId] w =
  match Convos (Store w) !! convoId with
  | None => Ret (Done None) w
  | Some c =>
      let ip := GetIP shp (RemoteAddr r) in
      if Room.has_ip (fst (Convo.Users c)) ip || Room.has_ip (snd (Convo.Users c)) ip
      then
        match BodyErr r with
        | Some e => Panic (ErrorValue e) w
        | None =>
            let '(c', evs, err) := Convo.AddMessage URL now c (Bytes (Body r)) ip in
            let w' := at_rest (<[convoId := c']> (Convos (Store w))) (trace w ++ evs) w in
            match err with
            | Some e => Panic (ErrorValue e) w'
            | None => Ret (Done None) w'
            end
        end
      else Ret (Done None) w
  end.
Proof.
  intros Hmu. unfold PUT.
  rewrite (bind_Ret _ _ _ _ _ (IsConvo_run convoId w Hmu)), is_Some_lookup.
  destruct (Convos (Store w) !! convoId) as [c|] eqn:Hc; cbn [negb]; [|reflexivity].
  rewrite (bind_Ret _ _ _ _ _ (IPExists_run convoId _ c w Hmu Hc)). cbv zeta.
  destruct (Room.has_ip _ _ || Room.has_ip _ _); cbn [negb]; [|reflexivity].
  unfold ReadAll. destruct (BodyErr r) as [e|]; [reflexivity|].
  pose proof (AddMessage_run URL now (Bytes (Body r)) convoId
                (GetIP shp (RemoteAddr r)) c w Hmu Hc) as Hadd.
  destruct (Convo.AddMessage URL now c (Bytes (Body r)) (GetIP shp (RemoteAddr r)))
    as [[c' evs] err].
  rewrite (bind_Ret _ _ _ _ _ Hadd). destruct err; reflexivity.
Qed.

Lemma GET_page URL PAGE shp now wr r ids w :
  not_curl (UserAgent r) = true ->
  GET URL PAGE shp now wr r ids w = Ret (Done (Some (Bytes PAGE))) w.
Proof. intros Hua. unfold GET. rewrite Hua. reflexivity. Qed.

Lemma GET_read_run URL PAGE shp now wr r x convoId messageId w :
  mu (Store w) = false ->
  not_curl (UserAgent r) = false ->
  GET URL PAGE shp now wr r [x; convoId; messageId] w =
  match Convos (Store w) !! convoId with
  | None => Ret (Done None) w
  | Some c =>
      let ip := GetIP shp (RemoteAddr r) in
      if Room.has_ip (fst (Convo.Users c)) ip || Room.has_ip (snd (Convo.Users c)) ip
      then
        let rest tr :=
          at_rest (<[convoId := with_Messages (delete messageId (Convo.Messages c)) c]>
                     (Convos (Store w))) tr w in
        if is_nil (Convo.ReadMessage c messageId)
        then Panic (ErrorValue "message doesn't exist") (rest (trace w))
        else Ret (Done (Some (Convo.ReadMessage c messageId)))
                 (rest (trace w ++
                        map (fun u => Send (User.Pipe u)
                                        (Bytes ("- " +:+ message_link URL convoId messageId)))
                            (occupants (Convo.Users c))))
      else Ret (Done None) w
  end.
Proof.
  intros Hmu Hua. unfold GET. rewrite Hua.
  rewrite (bind_Ret _ _ _ _ _ (IsConvo_run convoId w Hmu)), is_Some_lookup.
  destruct (Convos (Store w) !! convoId) as [c|] eqn:Hc; cbn [negb]; [|reflexivity].
  rewrite (bind_Ret _ _ _ _ _ (IPExists_run convoId _ c w Hmu Hc)). cbv zeta.
  destruct (Room.has_ip _ _ || Room.has_ip _ _); cbn [negb]; [|reflexivity].
  unfold mbind, M_bind.
  rewrite (ReadMessage_run URL convoId messageId c w Hmu Hc). cbv zeta.
  destruct (is_nil (Convo.ReadMessage c messageId)); reflexivity.
Qed.

Lemma Listen_enter_run user w :
  (err ← Listen_enter user;
   match err with
   | Some e => panic (ErrorValue e)
   | None => mret (Streaming user)
   end) w = listen_outcome user w.
Proof.
  unfold Listen_enter, listen_outcome.
  destruct (Flusher _); [destruct (CloseNotifier _)|]; reflexivity.
Qed.

Lemma GET_create_run URL PAGE shp now wr r x w :
  mu (Store w) = false ->
  not_curl (UserAgent r) = false ->
  GET URL PAGE shp now wr r [x; ""] w =
  let w0 := mkWorld (Store w) (Pos.succ (next_chan w)) (trace w) in
  match NewId now nil_bytes with
  | (_, Some e) => Panic (ErrorValue e) w0
  | (convoId, None) =>
      if Convos (Store w) !! convoId is Some _
      then Panic (ErrorValue "convo id overwrite") w0
      else
        let user := User.mk (next_chan w) None (GetIP shp (RemoteAddr r)) 0
                            convoId wr in
        listen_outcome user
          (mkWorld
             (mkRoom false
                (<[convoId := Convo.mk convoId (Some user, None) ∅
                                       (Pos.succ (next_chan w))]>
                   (Convos (Store w))))
             (Pos.succ (Pos.succ (next_chan w)))
             (trace w ++ [GoPing convoId; Println ("creating " +:+ convoId);
                          Send (next_chan w) (Bytes (": " +:+ URL +:+ convoId))]))
  end.
Proof.
  intros Hmu Hua. unfold GET. rewrite Hua. cbn [String.length Nat.eqb].
  unfold NewUser. unfold mbind at 1. unfold M_bind at 1. unfold make_chan at 1.
  unfold mbind at 1. unfold M_bind at 1. unfold mret at 1, M_ret at 1.
  unfold mbind at 1. unfold M_bind at 1.
  rewrite CreateConvo_run by exact Hmu. cbn [Store next_chan trace].
  destruct (NewId now nil_bytes) as [convoId [e|]]; [reflexivity|].
  destruct (Convos (Store w) !! convoId); [reflexivity|].
  unfold mbind at 1. unfold M_bind at 1. unfold emit at 1.
  cbn [Store next_chan trace].
  rewrite Listen_enter_run. rewrite <- app_assoc. reflexivity.
Qed.

Lemma GET_join_run URL PAGE shp now wr r x convoId w :
  mu (Store w) = false ->
  not_curl (UserAgent r) = false ->
  (String.length convoId =? 0)%nat = false ->
  GET URL PAGE shp now wr r [x; convoId] w =
  let w0 := mkWorld (Store w) (Pos.succ (next_chan w)) (trace w) in
  let ip := GetIP shp (RemoteAddr r) in
  match Convos (Store w) !! convoId with
  | None => Ret (Done None) w0
  | Some c =>
      let joined i prev :=
        let user := User.mk (next_chan w) None ip i convoId wr in
        listen_outcome user
          (at_rest (<[convoId := with_Users (slot_set (Convo.Users c) i (Some user)) c]>
                      (Convos (Store w)))
                   (trace w ++ [Send (User.Pipe prev) (Bytes ("> " +:+ ip));
                                Send (next_chan w) (Bytes ("> " +:+ User.IP prev))])
                   w0) in
      match Convo.Users c with
      | (Some _, Some _) => Ret (Done None) w0
      | (Some prev, None) => joined 1 prev
      | (None, Some prev) => joined 0 prev
      | (None, None) => Panic (ErrorValue "this is bad") w0
      end
  end.
Proof.
  intros Hmu Hua Hlen. unfold GET. rewrite Hua, Hlen.
  unfold NewUser. unfold mbind at 1. unfold M_bind at 1. unfold make_chan at 1.
  unfold mbind at 1. unfold M_bind at 1. unfold mret at 1, M_ret at 1.
  set (w0 := mkWorld (Store w) (Pos.succ (next_chan w)) (trace w)).
  assert (Hmu0 : mu (Store w0) = false) by exact Hmu.
  rewrite (bind_Ret _ _ _ _ _ (IsConvo_run convoId w0 Hmu0)), is_Some_lookup.
  change (Convos (Store w0)) with (Convos (Store w)).
  destruct (Convos (Store w) !! convoId) as [c|] eqn:Hc; cbn [negb]; [|reflexivity].
  assert (Hc0 : Convos (Store w0) !! convoId = Some c) by exact Hc.
  rewrite (bind_Ret _ _ _ _ _ (IsConvoFull_run convoId c w0 Hmu0 Hc0)).
  destruct (Convo.Users c) as [[u0|] [u1|]] eqn:Hus; [reflexivity| | |].
  all: unfold mbind at 1; unfold M_bind at 1;
    rewrite (JoinConvo_run _ convoId c w0 Hmu0 Hc0);
    cbv zeta; rewrite Hus; cbn [User.Pipe User.Stop User.IP User.Writer User.UserId].
  all: try reflexivity.
  - erewrite bind_Ret; cycle 1.
    { eapply OtherUser_run; [reflexivity | apply lookup_insert_eq | reflexivity]. }
    unfold mbind at 1. unfold M_bind at 1. unfold emit at 1.
    rewrite Listen_enter_run. unfold at_rest. cbn [Store next_chan trace Write User.Pipe occupants fst snd map app].
    rewrite <- app_assoc. reflexivity.
  - erewrite bind_Ret; cycle 1.
    { eapply OtherUser_run; [reflexivity | apply lookup_insert_eq | reflexivity]. }
    unfold mbind at 1. unfold M_bind at 1. unfold emit at 1.
    rewrite Listen_enter_run. unfold at_rest. cbn [Store next_chan trace Write User.Pipe occupants fst snd map app].
    rewrite <- app_assoc. reflexivity.
Qed.

Lemma listen_outcome_final user w :
  final (listen_outcome user w) = w /\ waits (listen_outcome user w) = false.
Proof.
  unfold listen_outcome.
  destruct (Flusher _); [destruct (CloseNotifier _)|]; split; reflexivity.
Qed.

Lemma untouched_same ids w w' :
  mu (Store w) = false -> Store w' = Store w -> untouched ids w w'.
Proof. intros Hmu Heq. split; rewrite Heq; auto. Qed.

Lemma untouched_insert ids w convoId c' n tr :
  (ids !! 1%nat = Some convoId \/ Convos (Store w) !! convoId = None) ->
  untouched ids w
    (mkWorld (mkRoom false (<[convoId := c']> (Convos (Store w)))) n tr).
Proof.
  intros Hid. split; [reflexivity|]. intros id c Hne Hc. cbn.
  rewrite lookup_insert_ne; [exact Hc|]. intros <-. destruct Hid; congruence.
Qed.

Lemma listen_frame ids w user w1 :
  untouched ids w w1 ->
  waits (listen_outcome user w1) = false /\
  untouched ids w (final (listen_outcome user w1)).
Proof.
  intros H. destruct (listen_outcome_final user w1) as [-> ->]. auto.
Qed.

Lemma handle_frame URL PAGE shp method now wr r ids w :
  mu (Store w) = false ->
  let o := handle URL PAGE shp method now wr r ids w in
  waits o = false /\ untouched ids w (final o).
Proof.
  intros Hmu o. subst o. unfold handle.
  assert (Hsame : forall (rep : reply) w',
            Store w' = Store w ->
            waits (Ret rep w') = false /\ untouched ids w (final (Ret rep w'))).
  { intros rep w' Heq. split; [reflexivity|]. apply untouched_same; auto. }
  assert (Hpanic : forall p w',
            Store w' = Store w ->
            waits (@Panic reply p w') = false /\
            untouched ids w (final (@Panic reply p w'))).
  { intros p w' Heq. split; [reflexivity|]. apply untouched_same; auto. }
  destruct (String.eqb method "GET"); [|destruct (String.eqb method "PUT")].
  - destruct (not_curl (UserAgent r)) eqn:Hua.
    { rewrite GET_page by exact Hua. apply Hsame. reflexivity. }
    destruct ids as [|x [|id1 [|mid [|extra ids]]]];
      try (unfold GET; rewrite Hua; apply Hsame; reflexivity).
    + (* create or join *)
      destruct (String.length id1 =? 0)%nat eqn:Hlen.
      * assert (id1 = "") as -> by (destruct id1; [reflexivity | discriminate]).
        rewrite GET_create_run by assumption. cbv zeta.
        destruct (NewId now nil_bytes) as [convoId [e|]];
          [apply Hpanic; reflexivity|].
        destruct (Convos (Store w) !! convoId) eqn:Hc;
          [apply Hpanic; reflexivity|].
        apply listen_frame, untouched_insert. right. exact Hc.
      * rewrite GET_join_run by assumption. cbv zeta.
        destruct (Convos (Store w) !! id1) as [c|] eqn:Hc;
          [|apply Hsame; reflexivity].
        destruct (Convo.Users c) as [[u0|] [u1|]];
          try (apply Hsame; reflexivity); try (apply Hpanic; reflexivity);
          apply listen_frame, untouched_insert; left; reflexivity.
    + (* read *)
      rewrite GET_read_run by assumption.
      destruct (Convos (Store w) !! id1) as [c|] eqn:Hc;
        [|apply Hsame; reflexivity].
      cbv zeta. destruct (_ || _); [|apply Hsame; reflexivity].
      destruct (is_nil _); (split; [reflexivity|]);
        apply untouched_insert; left; reflexivity.
  - destruct ids as [|x [|id1 [|mid ids]]];
      try (apply Hsame; reflexivity).
    rewrite PUT_run by assumption.
    destruct (Convos (Store w) !! id1) as [c|] eqn:Hc;
      [|apply Hsame; reflexivity].
    cbv zeta. destruct (_ || _); [|apply Hsame; reflexivity].
    destruct (BodyErr r); [apply Hpanic; reflexivity|].
    destruct (Convo.AddMessage _ _ _ _ _) as [[c' evs] [e|]];
      (split; [reflexivity|]); apply untouched_insert; left; reflexivity.
  - apply Hsame. reflexivity.
Qed.

(** ** Authorization *)

Lemma unauthorized_has_ip us ip :
  (forall u, u ∈ occupants us -> User.IP u <> ip) ->
  Room.has_ip (fst us) ip || Room.has_ip (snd us) ip = false.
Proof.
  intros Hno.
  destruct (Room.has_ip (fst us) ip || Room.has_ip (snd us) ip) eqn:Hb; [|reflexivity].
  apply has_ip_occupants in Hb as (u & Hu & Hip). destruct (Hno u Hu Hip).
Qed.

(** C4: [IPExists] returns true exactly when the IP of some occupied slot
    equals the IP it is given, and changes nothing. A read-message or
    write-message request whose origin is the IP of no occupant of the
    conversation it names returns without effect: the world after it is the
    world before it, so the message map and the slots are unchanged and no
    event is added to the trace. The response is empty, or the landing page
    when the read request does not come from curl. *)
Theorem unauthorized_noop (URL PAGE : string)
    (SplitHostPort : string -> string * string * option error) (now : clock)
    (wr : ResponseWriter) (r : Request) (x convoId messageId : string)
    (c : Convo.t) (w : world) :
  mu (Store w) = false ->
  Convos (Store w) !! convoId = Some c ->
  (forall ip, exists b,
     Room.IPExists convoId ip w = Ret b w /\
     (b = true <-> exists u, u ∈ occupants (Convo.Users c) /\ User.IP u = ip)) /\
  ((forall u, u ∈ occupants (Convo.Users c) ->
      User.IP u <> GetIP SplitHostPort (RemoteAddr r)) ->
   GET URL PAGE SplitHostPort now wr r [x; convoId; messageId] w =
     Ret (if not_curl (UserAgent r) then Done (Some (Bytes PAGE)) else Done None) w /\
   PUT URL SplitHostPort now wr r [x; convoId] w = Ret (Done None) w).
Proof.
  intros Hmu Hc. split.
  - intros ip. eexists. split.
    + apply (IPExists_run convoId ip c w Hmu Hc).
    + apply has_ip_occupants.
  - intros Hno. apply unauthorized_has_ip in Hno. split.
    + destruct (not_curl (UserAgent r)) eqn:Hua.
      * apply GET_page. exact Hua.
      * rewrite GET_read_run by assumption. rewrite Hc. cbv zeta.
        rewrite Hno. reflexivity.
    + rewrite PUT_run by assumption. rewrite Hc. cbv zeta.
      rewrite Hno. reflexivity.
Qed.

(** The statement above for requests of a third address to the sample
    conversation. *)
Lemma unauthorized_noop_witness :
  Room.IPExists "42" "10.0.0.2" sample_world = Ret true sample_world /\
  Room.IPExists "42" "10.0.0.3" sample_world = Ret false sample_world /\
  GET sample_URL "<html>" sample_SplitHostPort sample_clock (mkWriter true true)
      (curl_from "10.0.0.3:4000" "") [""; "42"; "7"] sample_world =
    Ret (Done None) sample_world /\
  PUT sample_URL sample_SplitHostPort sample_clock (mkWriter true true)
      (curl_from "10.0.0.3:4000" "hello") [""; "42"] sample_world =
    Ret (Done None) sample_world.
Proof.
  pose proof (unauthorized_noop sample_URL "<html>" sample_SplitHostPort
                sample_clock (mkWriter true true) (curl_from "10.0.0.3:4000" "hello")
                "" "42" "7" sample_convo sample_world eq_refl eq_refl) as [_ Hput].
  pose proof (unauthorized_noop sample_URL "<html>" sample_SplitHostPort
                sample_clock (mkWriter true true) (curl_from "10.0.0.3:4000" "")
                "" "42" "7" sample_convo sample_world eq_refl eq_refl) as [Hip Hget].
  assert (Hstranger : forall u, u ∈ occupants (Convo.Users sample_convo) ->
                        User.IP u <> "10.0.0.3").
  { intros u Hu.
    apply elem_of_cons in Hu as [-> | Hu]; [discriminate|].
    apply list_elem_of_singleton in Hu as ->. discriminate. }
  split; [reflexivity|]. split; [reflexivity|]. split.
  - exact (proj1 (Hget Hstranger)).
  - exact (proj2 (Hput Hstranger)).
Defined.

(** ** The invariant of the registry *)

Lemma occupancy_ge1 us : (1 <= occupancy us)%nat <-> us <> (None, None).
Proof.
  destruct us as [[u0|] [u1|]]; cbn; split; intros H; try congruence; lia.
Qed.

Lemma occupied_insert m id c :
  occupied m -> Convo.Users c <> (None, None) -> occupied (<[id := c]> m).
Proof.
  intros Hm Hc id' c'. rewrite lookup_insert. case_decide.
  - intros [= <-]. apply occupancy_ge1. exact Hc.
  - apply Hm.
Qed.

Lemma occupied_delete m id : occupied m -> occupied (delete id m).
Proof.
  intros Hm id' c'. rewrite lookup_delete. case_decide; [discriminate | apply Hm].
Qed.

(** The calls that only read leave the world as it was, however they end. *)
Lemma readers_final w :
  mu (Store w) = false ->
  (forall convoId ip, final (Room.IPExists convoId ip w) = w) /\
  (forall convoId userId, final (Room.OtherUser convoId userId w) = w) /\
  (forall convoId, final (Room.IsConvo convoId w) = w) /\
  (forall convoId, final (Room.IsConvoFull convoId w) = w).
Proof.
  intros Hmu. destruct w as [[m cs] n tr]. cbn in Hmu. subst m.
  unfold Room.IPExists, Room.OtherUser, Room.IsConvo, Room.IsConvoFull. unfold_M.
  repeat split; intros convoId; intros; destruct (cs !! convoId) as [c|]; cbn; try reflexivity.
  - destruct (Room.has_ip _ _); [reflexivity|]. destruct (Room.has_ip _ _); reflexivity.
  - destruct (slot_get _ _) as [[u|]|]; reflexivity.
  - destruct (Convo.Users c) as [[u0|] [u1|]]; reflexivity.
Qed.

(** What a call that panics on its way leaves behind. *)
Lemma DeleteUser_panics convoId userId w :
  mu (Store w) = false ->
  match Convos (Store w) !! convoId with
  | None => True
  | Some c => slot_get (Convo.Users c) userId = None \/
              slot_get (Convo.Users c) userId = Some None
  end ->
  exists p, Room.DeleteUser convoId userId w = Panic p w.
Proof.
  intros Hmu Hbad. unfold Room.DeleteUser. run_from w Hmu.
  destruct (cs !! convoId) as [c|]; [|eauto].
  destruct Hbad as [-> | ->]; eauto.
Qed.

Lemma absent_panics convoId w :
  mu (Store w) = false ->
  Convos (Store w) !! convoId = None ->
  (forall user, Room.JoinConvo user convoId w = Panic nil_dereference w) /\
  (forall URL now data ip,
     Room.AddMessage URL now data convoId ip w = Panic nil_dereference w) /\
  (forall URL messageId,
     Room.ReadMessage URL convoId messageId w = Panic nil_dereference (set_mu true w)).
Proof.
  intros Hmu Hc. unfold Room.JoinConvo, Room.AddMessage, Room.ReadMessage.
  run_from w Hmu. rewrite Hc.
  repeat split; intros;
    repeat (cbn [Store mu Convos next_chan trace]; rewrite ?Hc); reflexivity.
Qed.

Lemma after_occupied URL k w :
  occupied (Convos (Store w)) -> occupied (Convos (Store (after URL k w))).
Proof.
  intros Hinv. destruct (mu (Store w)) eqn:Hmu.
  { (* the mutex is held: the call waits *)
    pose proof (held_blocks w Hmu) as (? & ? & ? & ? & ? & ? & ? & ?).
    destruct k; cbn [after]; rewrite ?H, ?H0, ?H1, ?H2, ?H3, ?H4, ?H5, ?H6;
      try exact Hinv.
    unfold Room.CreateConvo.
    destruct (NewId now nil_bytes) as [convoId [err|]]; [exact Hinv|].
    unfold mbind, M_bind, Lock. rewrite Hmu. exact Hinv. }
  pose proof (readers_final w Hmu) as (Hip & Hother & Hisconvo & Hfull).
  destruct k; cbn [after]; rewrite ?Hip, ?Hother, ?Hisconvo, ?Hfull; try exact Hinv.
  - (* DeleteUser *)
    destruct (Convos (Store w) !! convoId) as [c|] eqn:Hc.
    2:{ destruct (DeleteUser_panics convoId userId w Hmu) as [p ->];
          [rewrite Hc; exact I | exact Hinv]. }
    destruct (slot_get (Convo.Users c) userId) as [[u|]|] eqn:Hu.
    2,3: destruct (DeleteUser_panics convoId userId w Hmu) as [p ->];
           [rewrite Hc; auto | exact Hinv].
    rewrite (DeleteUser_run convoId userId c u w Hmu Hc Hu).
    destruct (slot_get (Convo.Users c) (OtherUserId userId)) as [[other|]|] eqn:Ho;
      cbn [final at_rest Store Convos]; try (apply occupied_delete; exact Hinv).
    apply occupied_insert; [exact Hinv|]. cbn [with_Users Convo.Users].
    unfold slot_get in Hu, Ho. unfold slot_set.
    destruct (Convo.Users c) as [s0 s1].
    destruct (Z.eqb_spec userId 0) as [-> | ?];
      [|destruct (Z.eqb_spec userId 1) as [-> | ?]; [|discriminate]];
      rewrite ?OtherUserId_0, ?OtherUserId_1 in Ho; cbn in Ho; cbn; congruence.
  - (* ReadMessage *)
    destruct (Convos (Store w) !! convoId) as [c|] eqn:Hc.
    2:{ destruct (absent_panics convoId w Hmu Hc) as (_ & _ & ->). exact Hinv. }
    rewrite (ReadMessage_run URL convoId messageId c w Hmu Hc). cbv zeta.
    destruct (is_nil _); cbn [final at_rest Store Convos];
      (apply occupied_insert;
       [exact Hinv | apply occupancy_ge1; exact (Hinv convoId c Hc)]).
  - (* AddMessage *)
    destruct (Convos (Store w) !! convoId) as [c|] eqn:Hc.
    2:{ destruct (absent_panics convoId w Hmu Hc) as (_ & -> & _). exact Hinv. }
    rewrite (AddMessage_run URL now data convoId ip c w Hmu Hc).
    rewrite AddMessage_eq.
    destruct (NewId now data) as [messageId [err|]];
      [|destruct (Convo.Messages c !! messageId)];
      cbn [final at_rest Store Convos];
      (apply occupied_insert;
       [exact Hinv | apply occupancy_ge1; exact (Hinv convoId c Hc)]).
  - (* JoinConvo *)
    destruct (Convos (Store w) !! convoId) as [c|] eqn:Hc.
    2:{ destruct (absent_panics convoId w Hmu Hc) as (-> & _ & _). exact Hinv. }
    rewrite (JoinConvo_run user convoId c w Hmu Hc). cbv zeta.
    destruct (Convo.Users c) as [[u0|] [u1|]]; cbn [final]; try exact Hinv;
      cbn [at_rest Store Convos]; (apply occupied_insert; [exact Hinv | discriminate]).
  - (* CreateConvo *)
    rewrite (CreateConvo_run now user w Hmu).
    destruct (NewId now nil_bytes) as [convoId [err|]]; [exact Hinv|].
    destruct (Convos (Store w) !! convoId); [exact Hinv|].
    cbn [final Store Convos]. apply occupied_insert; [exact Hinv | discriminate].
Qed.


(** C2: every conversation in the registry map has at least one occupied
    slot. This holds of the initial registry, is kept by every call of a
    method of the registry, whatever its arguments and however it ends, and
    so holds in every world the registry can reach. In particular a created
    conversation enters the map with slot 0 filled, a join that succeeds
    fills the free slot, and the call that empties the last occupied slot
    returns with the conversation deleted from the map. *)
Theorem registry_invariant (URL : string) :
  (forall n, occupied (Convos (Store (initial n)))) /\
  (forall k w,
     occupied (Convos (Store w)) -> occupied (Convos (Store (after URL k w)))) /\
  (forall w, reachable URL w -> occupied (Convos (Store w))) /\
  (forall now user w convoId,
     mu (Store w) = false ->
     NewId now nil_bytes = (convoId, None) ->
     Convos (Store w) !! convoId = None ->
     exists c, Convos (Store (after URL (CallCreateConvo now user) w)) !! convoId = Some c /\
               is_Some (fst (Convo.Users c)) /\ snd (Convo.Users c) = None) /\
  (forall user convoId c w,
     mu (Store w) = false ->
     Convos (Store w) !! convoId = Some c ->
     occupancy (Convo.Users c) = 1%nat ->
     exists c', Convos (Store (after URL (CallJoinConvo user convoId) w)) !! convoId = Some c' /\
                occupancy (Convo.Users c') = 2%nat) /\
  (forall convoId userId c u w,
     mu (Store w) = false ->
     Convos (Store w) !! convoId = Some c ->
     slot_get (Convo.Users c) userId = Some (Some u) ->
     occupancy (Convo.Users c) = 1%nat ->
     Convos (Store (after URL (CallDeleteUser convoId userId) w)) !! convoId = None).
Proof.
  split; [|split; [|split; [|split; [|split]]]].
  - intros n id c Hc. cbn in Hc. rewrite lookup_empty in Hc. discriminate.
  - intros k w. apply after_occupied.
  - intros w Hreach. induction Hreach as [n | w k _ IH].
    + intros id c Hc. cbn in Hc. rewrite lookup_empty in Hc. discriminate.
    + apply after_occupied. exact IH.
  - intros now user w convoId Hmu Hid Hfree. cbn [after].
    rewrite (CreateConvo_run now user w Hmu), Hid, Hfree. cbn [final Store Convos].
    eexists. split; [apply lookup_insert_eq|]. cbn. eauto.
  - intros user convoId c w Hmu Hc Hone. cbn [after].
    rewrite (JoinConvo_run user convoId c w Hmu Hc). cbv zeta.
    destruct (Convo.Users c) as [[u0|] [u1|]]; try discriminate;
      cbn [final at_rest Store Convos];
      (eexists; split; [apply lookup_insert_eq | reflexivity]).
  - intros convoId userId c u w Hmu Hc Hu Hone. cbn [after].
    rewrite (DeleteUser_run convoId userId c u w Hmu Hc Hu).
    assert (Hother : slot_get (Convo.Users c) (OtherUserId userId) = Some None).
    { unfold slot_get in *. destruct (Convo.Users c) as [[u0|] [u1|]];
        try discriminate;
        (destruct (Z.eqb_spec userId 0) as [-> | ?];
         [|destruct (Z.eqb_spec userId 1) as [-> | ?]; [|discriminate]]);
        try discriminate; reflexivity. }
    rewrite Hother. cbn [final at_rest Store Convos]. apply lookup_delete_eq.
Qed.

(** ** Stored messages *)

Lemma stored_bytes_insert m id c :
  stored_bytes m ->
  (forall messageId, Convo.Messages c !! messageId <> Some nil_bytes) ->
  stored_bytes (<[id := c]> m).
Proof.
  intros Hm Hc id' c' messageId. rewrite lookup_insert. case_decide.
  - intros [= <-]. apply Hc.
  - apply Hm.
Qed.

Lemma stored_bytes_delete m id : stored_bytes m -> stored_bytes (delete id m).
Proof.
  intros Hm id' c' messageId. rewrite lookup_delete.
  case_decide; [discriminate | apply Hm].
Qed.

Lemma after_stored_bytes URL k w :
  from_handler k ->
  stored_bytes (Convos (Store w)) -> stored_bytes (Convos (Store (after URL k w))).
Proof.
  intros Hk Hinv. destruct (mu (Store w)) eqn:Hmu.
  { pose proof (held_blocks w Hmu) as (? & ? & ? & ? & ? & ? & ? & ?).
    destruct k; cbn [after]; rewrite ?H, ?H0, ?H1, ?H2, ?H3, ?H4, ?H5, ?H6;
      try exact Hinv.
    unfold Room.CreateConvo.
    destruct (NewId now nil_bytes) as [convoId [err|]]; [exact Hinv|].
    unfold mbind, M_bind, Lock. rewrite Hmu. exact Hinv. }
  pose proof (readers_final w Hmu) as (Hip & Hother & Hisconvo & Hfull).
  destruct k; cbn [after]; rewrite ?Hip, ?Hother, ?Hisconvo, ?Hfull; try exact Hinv.
  - (* DeleteUser *)
    destruct (Convos (Store w) !! convoId) as [c|] eqn:Hc.
    2:{ destruct (DeleteUser_panics convoId userId w Hmu) as [p ->];
          [rewrite Hc; exact I | exact Hinv]. }
    destruct (slot_get (Convo.Users c) userId) as [[u|]|] eqn:Hu.
    2,3: destruct (DeleteUser_panics convoId userId w Hmu) as [p ->];
           [rewrite Hc; auto | exact Hinv].
    rewrite (DeleteUser_run convoId userId c u w Hmu Hc Hu).
    destruct (slot_get (Convo.Users c) (OtherUserId userId)) as [[other|]|];
      cbn [final at_rest Store Convos]; try (apply stored_bytes_delete; exact Hinv).
    apply stored_bytes_insert; [exact Hinv|]. intros messageId.
    exact (Hinv convoId c messageId Hc).
  - (* ReadMessage *)
    destruct (Convos (Store w) !! convoId) as [c|] eqn:Hc.
    2:{ destruct (absent_panics convoId w Hmu Hc) as (_ & _ & ->). exact Hinv. }
    rewrite (ReadMessage_run URL convoId messageId c w Hmu Hc). cbv zeta.
    destruct (is_nil _); cbn [final at_rest Store Convos];
      (apply stored_bytes_insert; [exact Hinv|]);
      intros messageId'; cbn; rewrite lookup_delete; case_decide;
      try discriminate; exact (Hinv convoId c messageId' Hc).
  - (* AddMessage *)
    destruct (Convos (Store w) !! convoId) as [c|] eqn:Hc.
    2:{ destruct (absent_panics convoId w Hmu Hc) as (_ & -> & _). exact Hinv. }
    rewrite (AddMessage_run URL now data convoId ip c w Hmu Hc).
    rewrite AddMessage_eq.
    destruct (NewId now data) as [messageId [err|]];
      [|destruct (Convo.Messages c !! messageId)];
      cbn [final at_rest Store Convos];
      (apply stored_bytes_insert; [exact Hinv|]);
      intros messageId'; try exact (Hinv convoId c messageId' Hc).
    cbn. rewrite lookup_insert. case_decide; [|exact (Hinv convoId c messageId' Hc)].
    cbn in Hk. congruence.
  - (* JoinConvo *)
    destruct (Convos (Store w) !! convoId) as [c|] eqn:Hc.
    2:{ destruct (absent_panics convoId w Hmu Hc) as (-> & _ & _). exact Hinv. }
    rewrite (JoinConvo_run user convoId c w Hmu Hc). cbv zeta.
    destruct (Convo.Users c) as [[u0|] [u1|]]; cbn [final]; try exact Hinv;
      cbn [at_rest Store Convos]; (apply stored_bytes_insert; [exact Hinv|]);
      intros messageId; exact (Hinv convoId c messageId Hc).
  - (* CreateConvo *)
    rewrite (CreateConvo_run now user w Hmu).
    destruct (NewId now nil_bytes) as [convoId [err|]]; [exact Hinv|].
    destruct (Convos (Store w) !! convoId); [exact Hinv|].
    cbn [final Store Convos]. apply stored_bytes_insert; [exact Hinv|].
    intros messageId. cbn. rewrite lookup_empty. discriminate.
Qed.

Lemma served_stored_bytes URL w : served URL w -> stored_bytes (Convos (Store w)).
Proof.
  intros H. induction H as [n | w k _ IH Hk].
  - intros id c messageId Hc. cbn in Hc. rewrite lookup_empty in Hc. discriminate.
  - apply after_stored_bytes; assumption.
Qed.

(** ** Read-once messages *)

Lemma with_Messages_id c : with_Messages (Convo.Messages c) c = c.
Proof. destruct c; reflexivity. Qed.

(** C1: in a conversation of the running server's registry, reading a
    stored message returns its bytes, removes the entry from the
    conversation's message map and sends the read receipt to every occupied
    slot before the call returns; reading the same id again fails with the
    error of a missing message; reading an id that is not stored fails with
    that error and leaves the world, the message map included, as it was. *)
Theorem ReadMessage_read_once (URL convoId messageId : string) (c : Convo.t)
    (w : world) :
  served URL w ->
  mu (Store w) = false ->
  Convos (Store w) !! convoId = Some c ->
  (forall data, Convo.Messages c !! messageId = Some data ->
     let c1 := with_Messages (delete messageId (Convo.Messages c)) c in
     let receipt := Bytes ("- " +:+ URL +:+ convoId +:+ "/" +:+ messageId) in
     let w1 :=
       at_rest (<[convoId := c1]> (Convos (Store w)))
               (trace w ++ map (fun u => Send (User.Pipe u) receipt)
                               (occupants (Convo.Users c)))
               w in
     Room.ReadMessage URL convoId messageId w = Ret (data, None) w1 /\
     Convos (Store w1) !! convoId = Some c1 /\
     Convo.Messages c1 !! messageId = None /\
     Room.ReadMessage URL convoId messageId w1 =
       Ret (nil_bytes, Some "message doesn't exist") w1) /\
  (Convo.Messages c !! messageId = None ->
     Room.ReadMessage URL convoId messageId w =
       Ret (nil_bytes, Some "message doesn't exist") w).
Proof.
  intros Hserved Hmu Hc. split.
  - intros data Hdata c1 receipt w1.
    assert (Hbytes : exists s, data = Bytes s).
    { destruct data as [|s]; [|eauto].
      destruct (served_stored_bytes URL w Hserved convoId c messageId Hc Hdata). }
    destruct Hbytes as [s ->].
    assert (Hc1 : Convos (Store w1) !! convoId = Some c1)
      by (unfold w1, at_rest; cbn; apply lookup_insert_eq).
    assert (Hgone : Convo.Messages c1 !! messageId = None)
      by (unfold c1, with_Messages; cbn; apply lookup_delete_eq).
    repeat split; try assumption.
    + rewrite (ReadMessage_run URL convoId messageId c w Hmu Hc).
      unfold Convo.ReadMessage. rewrite Hdata. reflexivity.
    + rewrite (ReadMessage_run URL convoId messageId c1 w1 eq_refl Hc1).
      unfold Convo.ReadMessage. rewrite Hgone. cbn [default is_nil].
      cbv zeta. f_equal. unfold w1, at_rest. cbn [Store Convos next_chan trace].
      rewrite insert_insert_eq. rewrite delete_id by exact Hgone.
      rewrite with_Messages_id. reflexivity.
  - intros Hnone.
    rewrite (ReadMessage_run URL convoId messageId c w Hmu Hc).
    unfold Convo.ReadMessage. rewrite Hnone. cbn [default is_nil]. cbv zeta.
    rewrite delete_id by exact Hnone. rewrite with_Messages_id.
    rewrite insert_id by exact Hc. rewrite at_rest_id by exact Hmu. reflexivity.
Qed.

Lemma served_world_served : served sample_URL served_world.
Proof.
  unfold served_world. repeat apply served_call; try exact I.
  - apply served_initial.
  - discriminate.
Qed.

(** The statement above for the message written in the registry built by
    calls: the first read returns it, the second finds nothing. *)
Lemma ReadMessage_read_once_witness :
  exists w1,
    Room.ReadMessage sample_URL sample_id sample_message served_world =
      Ret (Bytes "hello", None) w1 /\
    Room.ReadMessage sample_URL sample_id sample_message w1 =
      Ret (nil_bytes, Some "message doesn't exist") w1.
Proof.
  assert (Hc : exists c, Convos (Store served_world) !! sample_id = Some c /\
                         Convo.Messages c !! sample_message = Some (Bytes "hello")).
  { eexists. split; vm_compute; reflexivity. }
  destruct Hc as (c & Hc & Hm).
  destruct (ReadMessage_read_once sample_URL sample_id sample_message c served_world
              served_world_served eq_refl Hc) as [Hstored _].
  destruct (Hstored (Bytes "hello") Hm) as (Hfirst & _ & _ & Hsecond).
  eexists. split; [exact Hfirst | exact Hsecond].
Defined.

(** ** Failures in the handlers *)

Lemma never_rejected {A} (o : outcome A) : ~ rejected o.
Proof.
  intros (code & Hcode & Hout). destruct o; cbn in Hcode; try discriminate.
  injection Hcode as <-. apply Hout. lia.
Qed.

(** A failed [AddMessage] leaves the world as it was. *)
Lemma AddMessage_failed URL now data convoId ip c e w w' :
  mu (Store w) = false ->
  Convos (Store w) !! convoId = Some c ->
  Room.AddMessage URL now data convoId ip w = Ret (Some e) w' ->
  w' = w /\ snd (Convo.AddMessage URL now c data ip) = Some e.
Proof.
  intros Hmu Hc. rewrite (AddMessage_run URL now data convoId ip c w Hmu Hc).
  rewrite AddMessage_eq.
  destruct (NewId now data) as [messageId [err|]];
    [|destruct (Convo.Messages c !! messageId)];
    intros [= <- <-]; cbn [snd];
    rewrite ?app_nil_r, ?insert_id, ?at_rest_id by assumption; auto.
Qed.

(** C7, as the code has it: a request whose operation fails makes the
    handler panic with the error; no status is written. This is so for
    each failure the handlers test for: an error of [AddMessage] (the
    message id collision, the clock), an error reading the body, an error of
    [CreateConvo] (the conversation id collision, the clock), an error of
    [JoinConvo], and a writer that cannot flush when [Listen] starts. A
    failed write leaves the world as it was and a failed create leaves the
    registry as it was. Whatever the request and however the handler ends,
    it is never answered with a status outside 200..299, the mutex is free
    afterwards, and every conversation other than the one the request names
    is as it was. *)
Theorem failure_panics (URL PAGE : string)
    (SplitHostPort : string -> string * string * option error) (now : clock)
    (wr : ResponseWriter) (r : Request) (w : world) :
  mu (Store w) = false ->
  let authorized c :=
    exists u, u ∈ occupants (Convo.Users c) /\
              User.IP u = GetIP SplitHostPort (RemoteAddr r) in
  (forall x convoId c e w',
     Convos (Store w) !! convoId = Some c -> authorized c ->
     BodyErr r = None ->
     Room.AddMessage URL now (Bytes (Body r)) convoId
       (GetIP SplitHostPort (RemoteAddr r)) w = Ret (Some e) w' ->
     PUT URL SplitHostPort now wr r [x; convoId] w = Panic (ErrorValue e) w' /\
     w' = w) /\
  (forall x convoId c e,
     Convos (Store w) !! convoId = Some c -> authorized c ->
     BodyErr r = Some e ->
     PUT URL SplitHostPort now wr r [x; convoId] w = Panic (ErrorValue e) w) /\
  (forall x user0 w0 user1 convoId e w',
     not_curl (UserAgent r) = false ->
     NewUser SplitHostPort wr r w = Ret user0 w0 ->
     Room.CreateConvo now user0 w0 = Ret (user1, (convoId, Some e)) w' ->
     GET URL PAGE SplitHostPort now wr r [x; ""] w = Panic (ErrorValue e) w' /\
     Store w' = Store w) /\
  (forall x convoId c,
     not_curl (UserAgent r) = false ->
     (String.length convoId =? 0)%nat = false ->
     Convos (Store w) !! convoId = Some c ->
     Convo.Users c = (None, None) ->
     exists w',
       GET URL PAGE SplitHostPort now wr r [x; convoId] w =
         Panic (ErrorValue "this is bad") w' /\
       Store w' = Store w) /\
  (forall x convoId,
     not_curl (UserAgent r) = false ->
     Flusher wr = false ->
     (convoId = "" /\
      exists id, NewId now nil_bytes = (id, None) /\
                 Convos (Store w) !! id = None) \/
     (convoId <> "" /\
      exists c, Convos (Store w) !! convoId = Some c /\
                occupancy (Convo.Users c) = 1%nat) ->
     exists w',
       GET URL PAGE SplitHostPort now wr r [x; convoId] w =
         Panic (ErrorValue "couldn't get flusher") w') /\
  (forall method ids,
     let o := handle URL PAGE SplitHostPort method now wr r ids w in
     ~ rejected o /\ waits o = false /\ untouched ids w (final o)).
Proof.
  intros Hmu authorized. split; [|split; [|split; [|split; [|split]]]].
  - intros x convoId c e w' Hc Hauth Hbody Hadd.
    destruct (AddMessage_failed _ _ _ _ _ c e w w' Hmu Hc Hadd) as [-> Herr].
    split; [|reflexivity].
    rewrite PUT_run by exact Hmu. rewrite Hc. cbv zeta.
    apply has_ip_occupants in Hauth. rewrite Hauth, Hbody.
    rewrite AddMessage_eq in Herr |- *.
    destruct (NewId now (Bytes (Body r))) as [messageId [err|]];
      [|destruct (Convo.Messages c !! messageId)];
      cbn [snd] in Herr; try discriminate; injection Herr as <-;
      rewrite app_nil_r, insert_id, at_rest_id by assumption; reflexivity.
  - intros x convoId c e Hc Hauth Hbody.
    rewrite PUT_run by exact Hmu. rewrite Hc. cbv zeta.
    apply has_ip_occupants in Hauth. rewrite Hauth, Hbody. reflexivity.
  - intros x user0 w0 user1 convoId e w' Hua Hnew Hcreate.
    unfold NewUser, mbind, M_bind, make_chan, mret, M_ret in Hnew.
    injection Hnew as <- <-.
    rewrite CreateConvo_run in Hcreate by exact Hmu.
    rewrite GET_create_run by assumption. cbv zeta.
    cbn [Store next_chan trace] in Hcreate.
    destruct (NewId now nil_bytes) as [id [err|]].
    + injection Hcreate as <- <- <- <-. split; reflexivity.
    + destruct (Convos (Store w) !! id); [|discriminate].
      injection Hcreate as <- <- <- <-. split; reflexivity.
  - intros x convoId c Hua Hlen Hc Hus.
    rewrite GET_join_run by assumption. cbv zeta. rewrite Hc, Hus.
    eexists. split; reflexivity.
  - intros x convoId Hua Hflush [[-> (id & Hid & Hfree)] | [Hne (c & Hc & Hone)]].
    + rewrite GET_create_run by assumption. cbv zeta. rewrite Hid, Hfree.
      unfold listen_outcome. cbn [User.Writer]. rewrite Hflush. eauto.
    + assert (Hlen : (String.length convoId =? 0)%nat = false)
        by (destruct convoId; [congruence | reflexivity]).
      rewrite GET_join_run by assumption. cbv zeta. rewrite Hc.
      destruct (Convo.Users c) as [[u0|] [u1|]]; try discriminate;
        unfold listen_outcome; cbn [User.Writer]; rewrite Hflush; eauto.
  - intros method ids o. split; [apply never_rejected|].
    apply handle_frame. exact Hmu.
Qed.

(** The statement above for the repeated write in the registry built by
    calls. *)
Lemma failure_panics_witness :
  sample_put served_world =
  Panic (ErrorValue "message id overwrite") served_world.
Proof.
  pose proof (failure_panics sample_URL "<html>" sample_SplitHostPort sample_clock
                (mkWriter true true) (curl_from "10.0.0.2:5000" "hello")
                served_world eq_refl) as [Hwrite _].
  assert (Hc : exists c, Convos (Store served_world) !! sample_id = Some c /\
                         exists u, u ∈ occupants (Convo.Users c) /\
                                   User.IP u = "10.0.0.2").
  { eexists. split; [vm_compute; reflexivity|].
    eexists. split; [apply list_elem_of_further, list_elem_of_here | reflexivity]. }
  destruct Hc as (c & Hc & Hauth).
  refine (proj1 (Hwrite "" sample_id c "message id overwrite" served_world
                   Hc Hauth eq_refl _)).
  vm_compute. reflexivity.
Defined.

(** C7, as the spec states it, fails: the second of two identical writes in
    one clock reading collides; [AddMessage] returns the collision error and
    the handler panics with it, so the request is not answered with a status
    outside 200..299. *)
Lemma collision_not_rejected :
  Room.AddMessage sample_URL sample_clock (Bytes "hello") sample_id "10.0.0.2"
    served_world = Ret (Some "message id overwrite") served_world /\
  sample_put served_world =
    Panic (ErrorValue "message id overwrite") served_world /\
  ~ rejected (sample_put served_world).
Proof.
  split; [vm_compute; reflexivity|]. split; [vm_compute; reflexivity|].
  apply never_rejected.
Qed.

(** ** The loop of [Listen] *)

(** The goroutine's send on [Stop] has met the loop's receive. *)
Lemma met_snoc ls l :
  (exists ch, ListenLoop.StopRendezvous ch ∈ ls) ->
  exists ch, ListenLoop.StopRendezvous ch ∈ ls ++ [l].
Proof. intros [ch H]. exists ch. apply elem_of_app. auto. Qed.

Lemma met_last ls ch :
  exists ch', ListenLoop.StopRendezvous ch' ∈ ls ++ [ListenLoop.StopRendezvous ch].
Proof. exists ch. apply elem_of_app. right. apply list_elem_of_here. Qed.

(** Where the goroutine stands tells what has happened: before its send on
    [Stop] the pipe is open; after it the loop has returned without error,
    and the pipe is closed exactly when the goroutine has finished. *)
Lemma cleaner_invariant u ls c :
  ListenLoop.run (ListenLoop.start u) ls c ->
  match ListenLoop.cleaner c with
  | ListenLoop.AtClose =>
      ListenLoop.loop c = ListenLoop.Returned None /\
      ListenLoop.pipe_closed c = false /\
      exists ch, ListenLoop.StopRendezvous ch ∈ ls
  | ListenLoop.Finished =>
      ListenLoop.loop c = ListenLoop.Returned None /\
      ListenLoop.pipe_closed c = true /\
      exists ch, ListenLoop.StopRendezvous ch ∈ ls
  | _ => ListenLoop.pipe_closed c = false
  end.
Proof.
  intros Hrun. remember (ListenLoop.start u) as c0 eqn:Hc0.
  induction Hrun as [c | c ls c' l c'' Hrun IH Hstep].
  - subst c. reflexivity.
  - specialize (IH Hc0).
    destruct Hstep; cbn [ListenLoop.cleaner ListenLoop.loop ListenLoop.pipe_closed] in *.
    + (* the client closes *)
      destruct g; try exact IH;
        destruct IH as (Hl & Hp & Hmet); auto using met_snoc.
    + exact IH.
    + exact IH.
    + (* the send on Stop meets the loop *)
      split; [reflexivity|]. split; [exact IH | apply met_last].
    + (* a send from elsewhere meets the loop *)
      destruct g; try exact IH;
        destruct IH as (Hl & Hp & Hmet); auto using met_snoc.
    + (* close(u.Pipe) *)
      destruct IH as (Hl & Hp & Hmet). auto using met_snoc.
    + destruct g; try exact IH;
        destruct IH as (Hl & Hp & Hmet); auto using met_snoc.
    + destruct g; try exact IH;
        destruct IH as (Hl & Hp & Hmet); auto using met_snoc.
Qed.

(** The order the code sets up, whatever channel [Stop] is: the pipe is
    closed only after the goroutine's send on [Stop] has met the loop's
    receive, and by then the loop has returned without error. *)
Lemma close_after_stop u ls c :
  ListenLoop.run (ListenLoop.start u) ls c ->
  ListenLoop.pipe_closed c = true ->
  ListenLoop.loop c = ListenLoop.Returned None /\
  ListenLoop.stop_consumed ls.
Proof.
  intros Hrun Hclosed. pose proof (cleaner_invariant u ls c Hrun) as Hinv.
  destruct (ListenLoop.cleaner c); try congruence.
  - destruct Hinv as (_ & Hopen & _). congruence.
  - destruct Hinv as (Hl & _ & ch & Hmet). split; [exact Hl|].
    exists ch. left. exact Hmet.
Qed.

(** Every connection a handler leaves in the loop of [Listen] has the nil
    [Stop] channel [NewUser] gave it: neither [CreateConvo] nor [JoinConvo]
    writes the field. *)
Lemma streaming_stop_nil URL PAGE shp method now wr r ids w user w' :
  mu (Store w) = false ->
  handle URL PAGE shp method now wr r ids w = Ret (Streaming user) w' ->
  User.Stop user = None.
Proof.
  intros Hmu. unfold handle.
  assert (Hlisten : forall u w1,
            User.Stop u = None ->
            listen_outcome u w1 = Ret (Streaming user) w' -> User.Stop user = None).
  { intros u w1 Hu. unfold listen_outcome.
    destruct (Flusher _); [destruct (CloseNotifier _)|]; try discriminate.
    intros [= <- _]. exact Hu. }
  destruct (String.eqb method "GET"); [|destruct (String.eqb method "PUT")].
  - destruct (not_curl (UserAgent r)) eqn:Hua.
    { rewrite GET_page by exact Hua. discriminate. }
    destruct ids as [|x [|id1 [|mid [|extra ids]]]];
      try (unfold GET; rewrite Hua; discriminate).
    + destruct (String.length id1 =? 0)%nat eqn:Hlen.
      * assert (id1 = "") as -> by (destruct id1; [reflexivity | discriminate]).
        rewrite GET_create_run by assumption. cbv zeta.
        destruct (NewId now nil_bytes) as [convoId [e|]]; [discriminate|].
        destruct (Convos (Store w) !! convoId); [discriminate|].
        apply Hlisten. reflexivity.
      * rewrite GET_join_run by assumption. cbv zeta.
        destruct (Convos (Store w) !! id1) as [c|]; [|discriminate].
        destruct (Convo.Users c) as [[u0|] [u1|]]; try discriminate;
          apply Hlisten; reflexivity.
    + rewrite GET_read_run by assumption.
      destruct (Convos (Store w) !! id1) as [c|]; [|discriminate].
      cbv zeta. destruct (_ || _); [|discriminate].
      destruct (is_nil _); discriminate.
  - destruct ids as [|x [|id1 [|mid ids]]]; try discriminate.
    rewrite PUT_run by assumption.
    destruct (Convos (Store w) !! id1) as [c|]; [|discriminate].
    cbv zeta. destruct (_ || _); [|discriminate].
    destruct (BodyErr r); [discriminate|].
    destruct (Convo.AddMessage _ _ _ _ _) as [[c' evs] [e|]]; discriminate.
  - discriminate.
Qed.

(** With a nil [Stop] channel the client's disconnect is noticed,
    [DeleteUser] is called and the goroutine reaches its send on [Stop]; but
    in no run does the loop return, the stop signal get consumed or the pipe
    get closed: the send on the nil channel never completes. *)
Lemma nil_stop_never_returns (u : User.t) :
  User.Stop u = None ->
  (exists c,
     ListenLoop.run (ListenLoop.start u)
       [ListenLoop.ClientCloses; ListenLoop.Notified;
        ListenLoop.CallDeleteUser (User.ConvoId u) (User.UserId u)] c /\
     ListenLoop.client_gone c = true /\
     ListenLoop.cleaner c = ListenLoop.AtStopSend) /\
  (forall ls c,
     ListenLoop.run (ListenLoop.start u) ls c ->
     ListenLoop.loop c = ListenLoop.AtSelect /\
     ListenLoop.pipe_closed c = false /\
     ~ ListenLoop.stop_consumed ls).
Proof.
  intros Hnil. split.
  - exists (ListenLoop.mk u ListenLoop.AtSelect ListenLoop.AtStopSend true false []).
    split; [|split; reflexivity].
    apply (ListenLoop.run_snoc _ [ListenLoop.ClientCloses; ListenLoop.Notified]
             (ListenLoop.mk u ListenLoop.AtSelect ListenLoop.AtDeleteUser true false []));
      [|apply ListenLoop.step_delete].
    apply (ListenLoop.run_snoc _ [ListenLoop.ClientCloses]
             (ListenLoop.mk u ListenLoop.AtSelect ListenLoop.AtNotify true false []));
      [|apply ListenLoop.step_notify].
    apply (ListenLoop.run_snoc _ [] (ListenLoop.start u));
      [apply ListenLoop.run_nil | apply ListenLoop.step_client].
  - intros ls c Hrun.
    assert (Hinv : ListenLoop.user c = u /\
                   ListenLoop.loop c = ListenLoop.AtSelect /\
                   ListenLoop.pipe_closed c = false /\
                   ~ ListenLoop.stop_consumed ls); [|tauto].
    remember (ListenLoop.start u) as c0 eqn:Hc0.
    induction Hrun as [c | c ls c' l c'' Hrun IH Hstep].
    + subst c. repeat split. intros [ch [H | H]]; inversion H.
    + destruct (IH Hc0) as (Huser & Hloop & Hopen & Hnot). subst c.
      pose proof (cleaner_invariant u ls c' Hrun) as Hcl.
      assert (Hkeep : forall l0,
                (forall ch, l0 <> ListenLoop.StopRendezvous ch) ->
                (forall ch, l0 <> ListenLoop.StopFromElsewhere ch) ->
                ~ ListenLoop.stop_consumed (ls ++ [l0])).
      { intros l0 H1 H2 [ch [H | H]]; apply elem_of_app in H as [H | H];
          try (apply Hnot; exists ch; auto; fail);
          apply list_elem_of_singleton in H; [eapply H1 | eapply H2]; eauto. }
      assert (Hgoes : forall l0,
                (forall ch, l0 <> ListenLoop.StopRendezvous ch) ->
                (forall ch, l0 <> ListenLoop.StopFromElsewhere ch) ->
                u = u /\ ListenLoop.AtSelect = ListenLoop.AtSelect /\ false = false /\
                ~ ListenLoop.stop_consumed (ls ++ [l0])) by auto.
      destruct Hstep; cbn in *; subst.
      * apply Hgoes; discriminate.
      * apply Hgoes; discriminate.
      * apply Hgoes; discriminate.
      * rewrite Hnil in H. discriminate.
      * rewrite Hnil in H. discriminate.
      * destruct Hcl as [Hcl _]. discriminate.
      * apply Hgoes; discriminate.
      * discriminate.
Qed.

(** C8, on the code: for every connection a handler leaves in the loop of
    [Listen], the client's disconnect is noticed, [DeleteUser] is called and
    the goroutine reaches its send on [Stop]; but in no run does the loop
    return, the stop signal get consumed or the pipe get closed, because
    the [Stop] channel of the connection is nil. *)
Theorem Listen_never_returns (URL PAGE : string)
    (SplitHostPort : string -> string * string * option error)
    (method : string) (now : clock) (wr : ResponseWriter) (r : Request)
    (ids : list string) (w : world) (u : User.t) (w' : world) :
  mu (Store w) = false ->
  handle URL PAGE SplitHostPort method now wr r ids w = Ret (Streaming u) w' ->
  (exists c,
     ListenLoop.run (ListenLoop.start u)
       [ListenLoop.ClientCloses; ListenLoop.Notified;
        ListenLoop.CallDeleteUser (User.ConvoId u) (User.UserId u)] c /\
     ListenLoop.client_gone c = true /\
     ListenLoop.cleaner c = ListenLoop.AtStopSend) /\
  (forall ls c,
     ListenLoop.run (ListenLoop.start u) ls c ->
     ListenLoop.loop c = ListenLoop.AtSelect /\
     ListenLoop.pipe_closed c = false /\
     ~ ListenLoop.stop_consumed ls).
Proof.
  intros Hmu Hstream. apply nil_stop_never_returns.
  exact (streaming_stop_nil _ _ _ _ _ _ _ _ _ _ _ Hmu Hstream).
Qed.

(** The statement above for the connection of a party that creates a
    conversation in the empty registry. *)
Lemma Listen_never_returns_witness :
  exists u c,
    ListenLoop.run (ListenLoop.start u)
      [ListenLoop.ClientCloses; ListenLoop.Notified;
       ListenLoop.CallDeleteUser sample_id 0] c /\
    ListenLoop.client_gone c = true /\
    ListenLoop.cleaner c = ListenLoop.AtStopSend /\
    ListenLoop.loop c = ListenLoop.AtSelect /\
    ListenLoop.pipe_closed c = false.
Proof.
  assert (Hstream : exists u w',
            sample_create (initial 1%positive) = Ret (Streaming u) w' /\
            User.ConvoId u = sample_id /\ User.UserId u = 0).
  { eexists. eexists. split; [vm_compute; reflexivity|]. split; reflexivity. }
  destruct Hstream as (u & w' & Hstream & Hid & Hslot).
  destruct (Listen_never_returns sample_URL "<html>" sample_SplitHostPort "GET"
              sample_clock (mkWriter true true) (curl_from "10.0.0.1:4000" "")
              [""; ""] (initial 1%positive) u w' eq_refl Hstream)
    as [(c & Hrun & Hgone & Hsend) Hnever].
  destruct (Hnever _ c Hrun) as (Hloop & Hopen & _).
  rewrite Hid, Hslot in Hrun.
  exists u, c. auto.
Defined.


(** ** A whole exchange *)

(** Create, join, write, read: the reader gets the body, each party has
    been sent the other's address, the new-message notice with its marker
    and the read receipt, and the message is gone from the conversation. *)
Example exchange_runs :
  let link := sample_URL +:+ sample_id +:+ "/" +:+ sample_message in
  exists w,
    exchange = Ret (Done (Some (Bytes "hello"))) w /\
    mu (Store w) = false /\
    inbox 1%positive (trace w) =
      [Bytes (": " +:+ sample_URL +:+ sample_id); Bytes "> 10.0.0.2";
       Bytes ("+ " +:+ link); Bytes ("- " +:+ link)] /\
    inbox 3%positive (trace w) =
      [Bytes "> 10.0.0.1"; Bytes ("  " +:+ link); Bytes ("- " +:+ link)] /\
    (Convo.Messages <$> Convos (Store w) !! sample_id) = Some ∅.
Proof.
  eexists. split; [vm_compute; reflexivity|].
  repeat split; vm_compute; reflexivity.
Qed.

(** ** More of util.go *)

Lemma OtherUserId_wraps userId :
  int64_range userId ->
  OtherUserId userId =
  if decide (userId < - 2 ^ 63 + 2) then 1 - userId - 2 ^ 64 else 1 - userId.
Proof.
  intros Hrange. unfold int64_range in Hrange. unfold OtherUserId, wrap64.
  replace (Z.lnot userId + 2) with (1 - userId) by (unfold Z.lnot; lia).
  case_decide.
  - replace (1 - userId + 2 ^ 63) with ((1 - userId - 2 ^ 63) + 1 * 2 ^ 64) by lia.
    rewrite Z.mod_add by lia. rewrite Z.mod_small by lia. lia.
  - rewrite Z.mod_small by lia. lia.
Qed.

Lemma OtherUserId_slot userId :
  int64_range userId ->
  (OtherUserId userId = 0 \/ OtherUserId userId = 1) <->
  (userId = 0 \/ userId = 1).
Proof.
  intros Hrange. rewrite (OtherUserId_wraps userId Hrange).
  unfold int64_range in Hrange. case_decide; lia.
Qed.

Lemma OtherUserId_outside userId (us : slots) :
  int64_range userId -> userId <> 0 -> userId <> 1 ->
  slot_get us (OtherUserId userId) = None.
Proof.
  intros Hrange H0 H1. pose proof (OtherUserId_slot userId Hrange) as Hiff.
  unfold slot_get.
  destruct (Z.eqb_spec (OtherUserId userId) 0) as [E|_]; [lia|].
  destruct (Z.eqb_spec (OtherUserId userId) 1) as [E|_]; [lia|].
  reflexivity.
Qed.

(** X1: for a 64-bit int, [OtherUserId] gives a slot index, 0 or 1, exactly
    when it is given one; for any other argument the result is outside the
    two slots, so indexing [Users] with it panics. The result is a 64-bit
    int again. *)
Theorem OtherUserId_bounds (userId : Z) :
  int64_range userId ->
  int64_range (OtherUserId userId) /\
  ((OtherUserId userId = 0 \/ OtherUserId userId = 1) <->
   (userId = 0 \/ userId = 1)) /\
  (forall us : slots,
     userId <> 0 -> userId <> 1 -> slot_get us (OtherUserId userId) = None).
Proof.
  intros Hrange. split; [|split].
  - rewrite (OtherUserId_wraps userId Hrange).
    unfold int64_range in *. case_decide; lia.
  - apply OtherUserId_slot. exact Hrange.
  - intros us. apply OtherUserId_outside. exact Hrange.
Qed.

Lemma OtherUserId_bounds_witness :
  OtherUserId 2 = -1 /\
  slot_get (Some alice, Some bob) (OtherUserId 2) = None.
Proof.
  split; [reflexivity|].
  destruct (OtherUserId_bounds 2) as (_ & _ & Hout).
  - unfold int64_range. lia.
  - apply Hout; discriminate.
Defined.

Lemma fnv32a_write_bound s h :
  (h < 2 ^ 32)%N -> (fnv32a_write h s < 2 ^ 32)%N.
Proof.
  revert h. induction s as [|ch s IH]; intros h Hh; cbn [fnv32a_write].
  - exact Hh.
  - apply IH. apply N.mod_lt. discriminate.
Qed.

Lemma fnv32a_write_app s1 s2 h :
  fnv32a_write h (s1 +:+ s2) = fnv32a_write (fnv32a_write h s1) s2.
Proof.
  revert h. induction s1 as [|ch s1 IH]; intros h; cbn; [reflexivity | apply IH].
Qed.

Lemma pretty_N_char_digit x : is_digit (pretty_N_char x) = true.
Proof. unfold pretty_N_char. repeat case_match; reflexivity. Qed.

Lemma pretty_N_go_digits x s :
  all_digits s = true -> all_digits (pretty_N_go x s) = true.
Proof.
  revert s. induction (N.lt_wf_0 x) as [x _ IH]. intros s Hs.
  destruct (N.eq_dec x 0%N) as [-> | Hx].
  - rewrite pretty_N_go_0. exact Hs.
  - rewrite pretty_N_go_step by lia. apply IH.
    + apply N.div_lt; lia.
    + cbn [all_digits]. rewrite pretty_N_char_digit. exact Hs.
Qed.

Lemma pretty_N_go_nonempty x s : s <> "" -> pretty_N_go x s <> "".
Proof.
  revert s. induction (N.lt_wf_0 x) as [x _ IH]. intros s Hs.
  destruct (N.eq_dec x 0%N) as [-> | Hx].
  - rewrite pretty_N_go_0. exact Hs.
  - rewrite pretty_N_go_step by lia. apply IH; [apply N.div_lt; lia | discriminate].
Qed.

Lemma pretty_N_digits (x : N) : pretty x <> "" /\ all_digits (pretty x) = true.
Proof.
  unfold pretty, pretty_N. case_decide as Hx.
  - split; [discriminate | reflexivity].
  - split.
    + rewrite pretty_N_go_step by lia. apply pretty_N_go_nonempty. discriminate.
    + apply pretty_N_go_digits. reflexivity.
Qed.

(** The ids [NewId] makes. *)
Lemma NewId_id now data id :
  NewId now data = (id, None) ->
  id <> "" /\ all_digits id = true /\
  exists n, (n < 2 ^ 32)%N /\ id = pretty n /\
            n = Sum32 (fst now +:+ contents data).
Proof.
  unfold NewId. destruct now as [t [e|]]; [discriminate|]. intros [= <-].
  destruct (pretty_N_digits (Sum32 (t +:+ contents data))) as [Hne Hdig].
  split; [exact Hne|]. split; [exact Hdig|].
  eexists. split; [|split; reflexivity].
  apply fnv32a_write_bound. reflexivity.
Qed.

(** X2: [NewId] fails only with the clock, and then gives the empty id with
    the clock's error whatever the salt; otherwise the id is a non-empty
    string of decimal digits, the numeral of the 32-bit hash; it is the hash
    of the time continued over the salt, so the nil and the empty salt give
    the id of the time alone; and two ids are equal exactly when the hashes
    are. *)
Theorem NewId_spec (t : string) (data : bytes) :
  (forall e, NewId (t, Some e) data = ("", Some e)) /\
  (exists id,
     NewId (t, None) data = (id, None) /\
     id <> "" /\ all_digits id = true /\
     id = pretty (fnv32a_write (Sum32 t) (contents data)) /\
     (fnv32a_write (Sum32 t) (contents data) < 2 ^ 32)%N) /\
  NewId (t, None) nil_bytes = NewId (t, None) (Bytes "") /\
  NewId (t, None) nil_bytes = (pretty (Sum32 t), None) /\
  (forall t' data',
     NewId (t, None) data = NewId (t', None) data' <->
     Sum32 (t +:+ contents data) = Sum32 (t' +:+ contents data')).
Proof.
  split; [reflexivity|]. split; [|split; [reflexivity|split]].
  - exists (pretty (Sum32 (t +:+ contents data))).
    destruct (pretty_N_digits (Sum32 (t +:+ contents data))) as [Hne Hdig].
    unfold Sum32 in *. rewrite <- fnv32a_write_app.
    repeat split; try assumption.
    apply fnv32a_write_bound. reflexivity.
  - cbn. unfold Sum32. rewrite fnv32a_write_app. reflexivity.
  - intros t' data'. cbn. split.
    + intros [= H]. apply (inj pretty) in H. exact H.
    + intros ->. reflexivity.
Qed.

(** ** More of the registry *)

Lemma slot_index us i s : slot_get us i = Some s -> i = 0 \/ i = 1.
Proof.
  unfold slot_get. destruct (Z.eqb_spec i 0); [auto|].
  destruct (Z.eqb_spec i 1); [auto | discriminate].
Qed.

Lemma slot_get_set_same us i v :
  i = 0 \/ i = 1 -> slot_get (slot_set us i v) i = Some v.
Proof. intros [-> | ->]; reflexivity. Qed.

Lemma slot_get_set_other us i v :
  i = 0 \/ i = 1 ->
  slot_get (slot_set us i v) (OtherUserId i) = slot_get us (OtherUserId i).
Proof. intros [-> | ->]; destruct us; reflexivity. Qed.

(** [DeleteUser] of a slot that is empty, or of a conversation that is not
    in the map, panics on the nil pointer and leaves the world as it was. *)
Lemma DeleteUser_nil convoId userId w :
  mu (Store w) = false ->
  match Convos (Store w) !! convoId with
  | None => True
  | Some c => slot_get (Convo.Users c) userId = Some None
  end ->
  Room.DeleteUser convoId userId w = Panic nil_dereference w.
Proof.
  intros Hmu Hbad. unfold Room.DeleteUser. run_from w Hmu.
  destruct (cs !! convoId) as [c|]; [|reflexivity].
  rewrite Hbad. reflexivity.
Qed.

(** X3: a read in a conversation that is not in the map panics on the nil
    pointer, and the deferred function panics too before it unlocks: the
    mutex stays held, the map is as it was, and from then on every call of
    a method leaves the world as it is, waiting for the mutex. *)
Theorem ReadMessage_absent_holds_mutex (URL convoId messageId : string)
    (w : world) :
  mu (Store w) = false ->
  Convos (Store w) !! convoId = None ->
  exists w',
    Room.ReadMessage URL convoId messageId w = Panic nil_dereference w' /\
    mu (Store w') = true /\
    Convos (Store w') = Convos (Store w) /\
    trace w' = trace w /\
    (forall call, after URL call w' = w') /\
    (forall convoId' userId, Room.DeleteUser convoId' userId w' = Blocked w') /\
    (forall convoId', Room.IsConvo convoId' w' = Blocked w').
Proof.
  intros Hmu Hc. exists (set_mu true w).
  destruct (absent_panics convoId w Hmu Hc) as (_ & _ & Hread).
  assert (Hheld : mu (Store (set_mu true w)) = true) by reflexivity.
  pose proof (held_blocks _ Hheld)
    as (Hip & Hother & Hdel & Hisc & Hfull & Hjoin & Hrd & Hadd).
  repeat split; try reflexivity; auto.
  intros call. destruct call; cbn [after];
    rewrite ?Hip, ?Hother, ?Hdel, ?Hisc, ?Hfull, ?Hjoin, ?Hrd, ?Hadd;
    try reflexivity.
  unfold Room.CreateConvo.
  destruct (NewId now nil_bytes) as [id [err|]]; reflexivity.
Qed.

Lemma ReadMessage_absent_holds_mutex_witness :
  exists w',
    Room.ReadMessage sample_URL "43" "7" sample_world = Panic nil_dereference w' /\
    mu (Store w') = true /\
    Room.IsConvo "42" w' = Blocked w'.
Proof.
  destruct (ReadMessage_absent_holds_mutex sample_URL "43" "7" sample_world
              eq_refl eq_refl)
    as (w' & Hread & Hheld & _ & _ & _ & _ & Hisc).
  exists w'. auto.
Defined.

(** X4: removing the same user twice: the first call returns, the second
    panics on the nil pointer, the slot being empty or the conversation
    gone, and leaves the world of the first as it is. *)
Theorem DeleteUser_twice (convoId : string) (userId : Z) (c : Convo.t)
    (u : User.t) (w : world) :
  mu (Store w) = false ->
  Convos (Store w) !! convoId = Some c ->
  slot_get (Convo.Users c) userId = Some (Some u) ->
  exists w1,
    Room.DeleteUser convoId userId w = Ret () w1 /\
    Room.DeleteUser convoId userId w1 = Panic nil_dereference w1.
Proof.
  intros Hmu Hc Hu.
  pose proof (slot_index _ _ _ Hu) as Hi.
  rewrite (DeleteUser_run convoId userId c u w Hmu Hc Hu).
  destruct (slot_get (Convo.Users c) (OtherUserId userId)) as [[other|]|];
    eexists; (split; [reflexivity|]); apply DeleteUser_nil; try reflexivity;
    cbn [at_rest Store Convos]; rewrite ?lookup_delete_eq, ?lookup_insert_eq;
    try exact I.
  cbn [with_Users Convo.Users]. apply slot_get_set_same. exact Hi.
Qed.

Lemma DeleteUser_twice_witness :
  exists w1,
    Room.DeleteUser "42" 1 sample_world = Ret () w1 /\
    Room.DeleteUser "42" 1 w1 = Panic nil_dereference w1.
Proof.
  exact (DeleteUser_twice "42" 1 sample_convo bob sample_world
           eq_refl eq_refl eq_refl).
Defined.

(** X5: a party leaves a full conversation and a new one joins: the new
    user gets the slot that was emptied, whichever it is, with that index
    and the conversation id written into it; the party that stayed keeps
    its slot and is sent first the leave notice, then the join notice. *)
Theorem leave_then_join (user : User.t) (convoId : string) (userId : Z)
    (c : Convo.t) (gone stays : User.t) (w : world) :
  mu (Store w) = false ->
  Convos (Store w) !! convoId = Some c ->
  slot_get (Convo.Users c) userId = Some (Some gone) ->
  slot_get (Convo.Users c) (OtherUserId userId) = Some (Some stays) ->
  let user' := User.mk (User.Pipe user) (User.Stop user) (User.IP user) userId
                       convoId (User.Writer user) in
  exists w1 w2 c2,
    Room.DeleteUser convoId userId w = Ret () w1 /\
    Room.JoinConvo user convoId w1 = Ret (user', None) w2 /\
    Convos (Store w2) !! convoId = Some c2 /\
    slot_get (Convo.Users c2) userId = Some (Some user') /\
    slot_get (Convo.Users c2) (OtherUserId userId) = Some (Some stays) /\
    Convo.Messages c2 = Convo.Messages c /\
    trace w2 = trace w ++
      [Send (User.Pipe stays) (Bytes ("< " +:+ User.IP gone));
       Send (User.Pipe stays) (Bytes ("> " +:+ User.IP user))].
Proof.
  intros Hmu Hc Hgone Hstays user'.
  pose proof (slot_index _ _ _ Hgone) as Hi.
  rewrite (DeleteUser_run convoId userId c gone w Hmu Hc Hgone), Hstays.
  set (c1 := with_Users (slot_set (Convo.Users c) userId None) c).
  set (w1 := at_rest (<[convoId := c1]> (Convos (Store w)))
               (trace w ++ [Send (User.Pipe stays) (Bytes ("< " +:+ User.IP gone))])
               w).
  assert (Hc1 : Convos (Store w1) !! convoId = Some c1) by apply lookup_insert_eq.
  exists w1. rewrite (JoinConvo_run user convoId c1 w1 eq_refl Hc1). cbv zeta.
  unfold c1, w1.
  cbn [with_Users Convo.Users Convo.ConvoId Convo.Messages Convo.Stop
       at_rest Store Convos next_chan trace].
  destruct (Convo.Users c) as [s0 s1] eqn:Hus.
  destruct Hi as [-> | ->]; cbn in Hgone, Hstays;
    injection Hgone as ->; injection Hstays as ->; cbn;
    eexists; eexists; (split; [reflexivity|]); (split; [reflexivity|]);
    (split; [apply lookup_insert_eq|]);
    (split; [reflexivity|]); (split; [reflexivity|]); (split; [reflexivity|]);
    rewrite <- app_assoc; reflexivity.
Qed.

Lemma leave_then_join_witness :
  exists w1 w2 c2,
    Room.DeleteUser "42" 0 sample_world = Ret () w1 /\
    Room.JoinConvo carol "42" w1 =
      Ret (User.mk 4%positive None "10.0.0.3" 0 "42" (mkWriter true true), None) w2 /\
    Convos (Store w2) !! "42" = Some c2 /\
    Convo.Users c2 =
      (Some (User.mk 4%positive None "10.0.0.3" 0 "42" (mkWriter true true)),
       Some bob).
Proof.
  destruct (leave_then_join carol "42" 0 sample_convo alice bob sample_world
              eq_refl eq_refl eq_refl eq_refl)
    as (w1 & w2 & c2 & Hdel & Hjoin & Hc2 & H0 & H1 & _).
  exists w1, w2, c2. repeat split; try assumption.
  rewrite OtherUserId_0 in H1.
  destruct (Convo.Users c2) as [s0 s1]. cbn in H0, H1. congruence.
Defined.

(** X6: [CreateMessage] never overwrites or drops a message. When it
    returns an id, the id was free, the map is the old one with the data
    under the id, one entry larger, and [ReadMessage] of the id gives the
    data back while every other id reads as before; when it returns an
    error, the id is empty and the conversation is as it was. The slots and
    the conversation id are never touched. *)
Theorem CreateMessage_keeps (now : clock) (c : Convo.t) (data : bytes) :
  let c' := fst (Convo.CreateMessage now c data) in
  let messageId := fst (snd (Convo.CreateMessage now c data)) in
  let err := snd (snd (Convo.CreateMessage now c data)) in
  Convo.Users c' = Convo.Users c /\
  Convo.ConvoId c' = Convo.ConvoId c /\
  Convo.Stop c' = Convo.Stop c /\
  (forall id old, Convo.Messages c !! id = Some old ->
     Convo.Messages c' !! id = Some old) /\
  (err = None ->
     Convo.Messages c !! messageId = None /\
     Convo.Messages c' = <[messageId := data]> (Convo.Messages c) /\
     size (Convo.Messages c') = S (size (Convo.Messages c)) /\
     Convo.ReadMessage c' messageId = data /\
     forall id, id <> messageId ->
       Convo.ReadMessage c' id = Convo.ReadMessage c id) /\
  (err <> None -> c' = c /\ messageId = "").
Proof.
  cbv zeta. rewrite CreateMessage_spec.
  destruct (NewId now data) as [messageId [e|]]; cbn [fst snd].
  { do 4 (split; [auto|]). split; [discriminate | auto]. }
  destruct (Convo.Messages c !! messageId) as [old|] eqn:Hold; cbn [fst snd].
  { do 4 (split; [auto|]). split; [discriminate | auto]. }
  unfold with_Messages, Convo.ReadMessage.
  cbn [Convo.Users Convo.ConvoId Convo.Stop Convo.Messages].
  do 3 (split; [reflexivity|]). split; [|split].
  - intros id old Hid. rewrite lookup_insert_ne; [exact Hid | congruence].
  - intros _. split; [exact Hold|]. split; [reflexivity|].
    split; [apply map_size_insert_None; exact Hold|].
    split; [rewrite lookup_insert_eq; reflexivity|].
    intros id Hne. rewrite lookup_insert_ne by congruence. reflexivity.
  - intros Herr. destruct Herr. reflexivity.
Qed.

(** X7: [IsConvoFull] on a conversation of the map returns true exactly
    when both slots are occupied, and changes nothing. *)
Theorem IsConvoFull_spec (convoId : string) (c : Convo.t) (w : world) :
  mu (Store w) = false ->
  Convos (Store w) !! convoId = Some c ->
  exists full,
    Room.IsConvoFull convoId w = Ret full w /\
    (full = true <-> occupancy (Convo.Users c) = 2%nat) /\
    (full = false <-> (occupancy (Convo.Users c) <= 1)%nat).
Proof.
  intros Hmu Hc. rewrite (IsConvoFull_run convoId c w Hmu Hc).
  eexists. split; [reflexivity|].
  destruct (Convo.Users c) as [[u0|] [u1|]]; cbn; split; split;
    intros H; try reflexivity; try discriminate; lia.
Qed.

Lemma IsConvoFull_spec_witness :
  Room.IsConvoFull "42" sample_world = Ret true sample_world /\
  Room.IsConvoFull "42" lonely_world = Ret false lonely_world.
Proof.
  destruct (IsConvoFull_spec "42" sample_convo sample_world eq_refl eq_refl)
    as (full & Hrun & Htrue & _).
  destruct (IsConvoFull_spec "42" lonely_convo lonely_world eq_refl eq_refl)
    as (full' & Hrun' & _ & Hfalse).
  rewrite Hrun, Hrun'. split; f_equal.
  - apply Htrue. reflexivity.
  - apply Hfalse. cbn. lia.
Defined.



(** X9: [OtherUser] given slot 0 reads slot 1 and given slot 1 reads slot 0,
    returning the join notice with that user's IP, or panicking on the nil
    pointer when that slot is empty; given any other 64-bit int it panics
    on the index. The world is as it was in every case. *)
Theorem OtherUser_spec (convoId : string) (userId : Z) (c : Convo.t)
    (w : world) :
  mu (Store w) = false ->
  Convos (Store w) !! convoId = Some c ->
  int64_range userId ->
  Room.OtherUser convoId userId w =
  let answer s :=
    match s with
    | Some u => Ret (Bytes ("> " +:+ User.IP u)) w
    | None => Panic nil_dereference w
    end in
  if decide (userId = 0) then answer (snd (Convo.Users c))
  else if decide (userId = 1) then answer (fst (Convo.Users c))
  else Panic index_out_of_range w.
Proof.
  intros Hmu Hc Hrange. cbv zeta.
  assert (Hfinal : Room.OtherUser convoId userId w =
            match slot_get (Convo.Users c) (OtherUserId userId) with
            | Some (Some u) => Ret (Bytes ("> " +:+ User.IP u)) w
            | Some None => Panic nil_dereference w
            | None => Panic index_out_of_range w
            end).
  { unfold Room.OtherUser. run_from w Hmu. rewrite Hc.
    destruct (slot_get _ _) as [[u|]|]; reflexivity. }
  rewrite Hfinal.
  destruct (decide (userId = 0)) as [-> | H0]; [reflexivity|].
  destruct (decide (userId = 1)) as [-> | H1]; [reflexivity|].
  rewrite (OtherUserId_outside userId (Convo.Users c) Hrange H0 H1). reflexivity.
Qed.

Lemma OtherUser_spec_witness :
  Room.OtherUser "42" 1 sample_world = Ret (Bytes "> 10.0.0.1") sample_world /\
  Room.OtherUser "42" 0 lonely_world = Panic nil_dereference lonely_world /\
  Room.OtherUser "42" 2 sample_world = Panic index_out_of_range sample_world.
Proof.
  assert (Hint : forall z, -10 <= z <= 10 -> int64_range z)
    by (unfold int64_range; lia).
  split; [|split].
  - exact (OtherUser_spec "42" 1 sample_convo sample_world eq_refl eq_refl
             (Hint 1 ltac:(lia))).
  - exact (OtherUser_spec "42" 0 lonely_convo lonely_world eq_refl eq_refl
             (Hint 0 ltac:(lia))).
  - exact (OtherUser_spec "42" 2 sample_convo sample_world eq_refl eq_refl
             (Hint 2 ltac:(lia))).
Defined.

(** ** Users and their slots *)

Lemma addressed_insert m id c :
  addressed m ->
  Convo.ConvoId c = id ->
  (forall i u, slot_get (Convo.Users c) i = Some (Some u) ->
     User.ConvoId u = id /\ User.UserId u = i) ->
  addressed (<[id := c]> m).
Proof.
  intros Hm Hid Hus id' c'. rewrite lookup_insert. case_decide.
  - intros [= <-]. subst id'. auto.
  - apply Hm.
Qed.

Lemma addressed_delete m id : addressed m -> addressed (delete id m).
Proof.
  intros Hm id' c'. rewrite lookup_delete.
  case_decide; [discriminate | apply Hm].
Qed.

Lemma slot_get_set us i v j s :
  slot_get (slot_set us i v) j = Some s ->
  (j = i /\ s = v) \/ slot_get us j = Some s.
Proof.
  unfold slot_get, slot_set.
  destruct (Z.eqb_spec i 0) as [-> | ?];
    [|destruct (Z.eqb_spec i 1) as [-> | ?]];
    (destruct (Z.eqb_spec j 0) as [-> | ?];
     [|destruct (Z.eqb_spec j 1) as [-> | ?]]);
    cbn; intros [= <-]; auto.
Qed.

Lemma after_addressed URL k w :
  addressed (Convos (Store w)) -> addressed (Convos (Store (after URL k w))).
Proof.
  intros Hinv. destruct (mu (Store w)) eqn:Hmu.
  { pose proof (held_blocks w Hmu) as (? & ? & ? & ? & ? & ? & ? & ?).
    destruct k; cbn [after]; rewrite ?H, ?H0, ?H1, ?H2, ?H3, ?H4, ?H5, ?H6;
      try exact Hinv.
    unfold Room.CreateConvo.
    destruct (NewId now nil_bytes) as [convoId [err|]]; [exact Hinv|].
    unfold mbind, M_bind, Lock. rewrite Hmu. exact Hinv. }
  pose proof (readers_final w Hmu) as (Hip & Hother & Hisconvo & Hfull).
  destruct k; cbn [after]; rewrite ?Hip, ?Hother, ?Hisconvo, ?Hfull; try exact Hinv.
  - (* DeleteUser *)
    destruct (Convos (Store w) !! convoId) as [c|] eqn:Hc.
    2:{ destruct (DeleteUser_panics convoId userId w Hmu) as [p ->];
          [rewrite Hc; exact I | exact Hinv]. }
    destruct (slot_get (Convo.Users c) userId) as [[u|]|] eqn:Hu.
    2,3: destruct (DeleteUser_panics convoId userId w Hmu) as [p ->];
           [rewrite Hc; auto | exact Hinv].
    rewrite (DeleteUser_run convoId userId c u w Hmu Hc Hu).
    destruct (Hinv convoId c Hc) as [Hid Hus].
    destruct (slot_get (Convo.Users c) (OtherUserId userId)) as [[other|]|];
      cbn [final at_rest Store Convos]; try (apply addressed_delete; exact Hinv).
    apply addressed_insert; [exact Hinv | exact Hid |].
    intros i v Hv. cbn [with_Users Convo.Users] in Hv.
    apply slot_get_set in Hv as [[_ [=]] | Hv]. apply Hus. exact Hv.
  - (* ReadMessage *)
    destruct (Convos (Store w) !! convoId) as [c|] eqn:Hc.
    2:{ destruct (absent_panics convoId w Hmu Hc) as (_ & _ & ->). exact Hinv. }
    rewrite (ReadMessage_run URL convoId messageId c w Hmu Hc). cbv zeta.
    destruct (Hinv convoId c Hc) as [Hid Hus].
    destruct (is_nil _); cbn [final at_rest Store Convos];
      (apply addressed_insert; [exact Hinv | exact Hid | exact Hus]).
  - (* AddMessage *)
    destruct (Convos (Store w) !! convoId) as [c|] eqn:Hc.
    2:{ destruct (absent_panics convoId w Hmu Hc) as (_ & -> & _). exact Hinv. }
    rewrite (AddMessage_run URL now data convoId ip c w Hmu Hc).
    rewrite AddMessage_eq.
    destruct (Hinv convoId c Hc) as [Hid Hus].
    destruct (NewId now data) as [messageId [err|]];
      [|destruct (Convo.Messages c !! messageId)];
      cbn [final at_rest Store Convos];
      (apply addressed_insert; [exact Hinv | exact Hid | exact Hus]).
  - (* JoinConvo *)
    destruct (Convos (Store w) !! convoId) as [c|] eqn:Hc.
    2:{ destruct (absent_panics convoId w Hmu Hc) as (-> & _ & _). exact Hinv. }
    rewrite (JoinConvo_run user convoId c w Hmu Hc). cbv zeta.
    destruct (Hinv convoId c Hc) as [Hid Hus].
    destruct (Convo.Users c) as [[u0|] [u1|]]; cbn [final]; try exact Hinv;
      cbn [at_rest Store Convos];
      (apply addressed_insert; [exact Hinv | exact Hid |]);
      intros i v Hv; cbn [with_Users Convo.Users] in Hv;
      (apply slot_get_set in Hv as [[-> [= ->]] | Hv];
       [split; reflexivity | apply Hus; exact Hv]).
  - (* CreateConvo *)
    rewrite (CreateConvo_run now user w Hmu).
    destruct (NewId now nil_bytes) as [convoId [err|]]; [exact Hinv|].
    destruct (Convos (Store w) !! convoId); [exact Hinv|].
    cbn [final Store Convos]. apply addressed_insert; [exact Hinv | reflexivity |].
    intros i v Hv. cbn [Convo.Users] in Hv. unfold slot_get in Hv.
    destruct (Z.eqb_spec i 0) as [-> | ?];
      [|destruct (Z.eqb_spec i 1) as [-> | ?]]; cbn in Hv; try discriminate.
    injection Hv as <-. split; reflexivity.
Qed.

(** X10: in every world the registry can reach, each conversation is filed
    under its own [ConvoId], and each user in a slot carries that key as its
    [ConvoId] and the index of the slot as its [UserId]. So the call
    [DeleteUser(u.ConvoId, u.UserId)] that the goroutine of [Listen] makes
    for a user in the registry finds that very user in the slot it empties,
    and [AddMessage], which builds its links from the [ConvoId] field,
    names the same conversation as [ReadMessage], which builds them from
    the key. *)
Theorem registry_addressed (URL : string) (w : world) :
  reachable URL w ->
  addressed (Convos (Store w)) /\
  (forall id c i u,
     Convos (Store w) !! id = Some c ->
     slot_get (Convo.Users c) i = Some (Some u) ->
     Convos (Store w) !! User.ConvoId u = Some c /\
     slot_get (Convo.Users c) (User.UserId u) = Some (Some u)) /\
  (forall id c messageId,
     Convos (Store w) !! id = Some c ->
     message_link URL (Convo.ConvoId c) messageId = message_link URL id messageId).
Proof.
  intros Hreach.
  assert (Hinv : addressed (Convos (Store w))).
  { induction Hreach as [n | w k _ IH].
    - intros id c Hc. cbn in Hc. rewrite lookup_empty in Hc. discriminate.
    - apply after_addressed. exact IH. }
  split; [exact Hinv|]. split.
  - intros id c i u Hc Hu. destruct (Hinv id c Hc) as [_ Hus].
    destruct (Hus i u Hu) as [-> ->]. auto.
  - intros id c messageId Hc. destruct (Hinv id c Hc) as [-> _]. reflexivity.
Qed.

Lemma served_reachable URL w : served URL w -> reachable URL w.
Proof.
  intros H. induction H as [n | w k _ IH _]; [apply reach_initial|].
  apply reach_call. exact IH.
Qed.

Lemma registry_addressed_witness :
  exists c u,
    Convos (Store served_world) !! sample_id = Some c /\
    slot_get (Convo.Users c) 1 = Some (Some u) /\
    User.ConvoId u = sample_id /\ User.UserId u = 1 /\
    Convo.ConvoId c = sample_id.
Proof.
  assert (Hc : exists c u, Convos (Store served_world) !! sample_id = Some c /\
                           slot_get (Convo.Users c) 1 = Some (Some u)).
  { eexists. eexists. split; vm_compute; reflexivity. }
  destruct Hc as (c & u & Hc & Hu).
  destruct (registry_addressed sample_URL served_world
              (served_reachable _ _ served_world_served)) as (Hinv & _ & _).
  destruct (Hinv sample_id c Hc) as [Hid Hus].
  destruct (Hus 1 u Hu) as [Hcid Hslot].
  exists c, u. auto.
Defined.

(** ** Routing *)

Lemma split_slash_digits s : all_digits s = true -> split_slash s = [s].
Proof.
  induction s as [|ch s IH]; [reflexivity|]. cbn [all_digits split_slash].
  intros [Hch Hs]%andb_true_iff. rewrite (IH Hs).
  destruct (Ascii.eqb_spec ch "/") as [-> | _]; [discriminate | reflexivity].
Qed.

Lemma split_slash_piece s rest :
  all_digits s = true ->
  split_slash (s +:+ "/" +:+ rest) = s :: split_slash rest.
Proof.
  induction s as [|ch s IH]; [reflexivity|]. cbn [all_digits].
  intros [Hch Hs]%andb_true_iff.
  change (String ch s +:+ "/" +:+ rest) with (String ch (s +:+ "/" +:+ rest)).
  cbn [split_slash]. rewrite (IH Hs).
  destruct (Ascii.eqb_spec ch "/") as [-> | _]; [discriminate | reflexivity].
Qed.

Lemma split_slash_slash s : split_slash ("/" +:+ s) = "" :: split_slash s.
Proof. reflexivity. Qed.

(** X11: the links the server sends lead back to what they name. For a
    conversation id and a message id made by [NewId], the path of the
    conversation's link splits into the two pieces [GET] and [PUT] take for
    a join and a write, with a second piece that is not empty, so it is
    never taken for a create; the path of the message's link splits into
    the three pieces [GET] takes for a read of that message; and the bare
    path splits into the two pieces, the second empty, of a create. *)
Theorem links_route_back (URL PAGE : string)
    (SplitHostPort : string -> string * string * option error)
    (now now' : clock) (data : bytes) (convoId messageId : string) :
  NewId now nil_bytes = (convoId, None) ->
  NewId now' data = (messageId, None) ->
  split_slash "/" = [""; ""] /\
  split_slash ("/" +:+ convoId) = [""; convoId] /\
  (String.length convoId =? 0)%nat = false /\
  split_slash ("/" +:+ convoId +:+ "/" +:+ messageId) = [""; convoId; messageId] /\
  (forall clock wr r,
     route URL PAGE SplitHostPort "GET" ("/" +:+ convoId +:+ "/" +:+ messageId)
           clock wr r =
     GET URL PAGE SplitHostPort clock wr r [""; convoId; messageId]) /\
  (forall clock wr r,
     route URL PAGE SplitHostPort "PUT" ("/" +:+ convoId) clock wr r =
     PUT URL SplitHostPort clock wr r [""; convoId]).
Proof.
  intros Hc Hm.
  destruct (NewId_id _ _ _ Hc) as (Hcne & Hcdig & _).
  destruct (NewId_id _ _ _ Hm) as (_ & Hmdig & _).
  assert (H2 : split_slash ("/" +:+ convoId) = [""; convoId])
    by (rewrite split_slash_slash, split_slash_digits by exact Hcdig;
        reflexivity).
  assert (H3 : split_slash ("/" +:+ convoId +:+ "/" +:+ messageId) =
               [""; convoId; messageId]).
  { rewrite split_slash_slash, split_slash_piece by exact Hcdig.
    rewrite split_slash_digits by exact Hmdig. reflexivity. }
  split; [reflexivity|]. split; [exact H2|].
  split; [destruct convoId; [congruence | reflexivity]|].
  split; [exact H3|]. split.
  - intros clock wr r. unfold route, handle. rewrite H3. reflexivity.
  - intros clock wr r. unfold route, handle. rewrite H2. reflexivity.
Qed.

Lemma links_route_back_witness :
  split_slash ("/" +:+ sample_id +:+ "/" +:+ sample_message) =
  [""; sample_id; sample_message].
Proof.
  destruct (links_route_back sample_URL "<html>" sample_SplitHostPort
              sample_clock sample_clock (Bytes "hello") sample_id sample_message
              eq_refl eq_refl) as (_ & _ & _ & H & _).
  exact H.
Defined.

Lemma not_curl_prefix ua : not_curl ua = negb (String.prefix "curl" ua).
Proof.
  unfold not_curl.
  pose proof (prefix_correct "curl" ua) as Hpre. cbn [String.length] in Hpre.
  destruct (String.eqb_spec (substring 0 4 ua) "curl") as [Hsub | Hsub].
  - rewrite (proj2 Hpre Hsub). cbn [negb]. rewrite orb_false_r.
    destruct ua as [|a [|b [|c [|d rest]]]]; cbn in Hsub; try discriminate.
    reflexivity.
  - destruct (String.prefix "curl" ua) eqn:Hp.
    + destruct (Hsub (proj1 Hpre eq_refl)).
    + cbn [negb]. apply orb_true_r.
Qed.

(** X12: [GET] answers with the landing page, and nothing else happens,
    for every request whose [User-Agent] does not begin with the four
    letters curl, a shorter or missing header included, whatever the path.
    For one that does, the test the handler makes fails, and a path of
    fewer than two pieces gets an empty response. *)
Theorem landing_page_unless_curl (URL PAGE : string)
    (SplitHostPort : string -> string * string * option error)
    (now : clock) (wr : ResponseWriter) (r : Request) (w : world) :
  (String.prefix "curl" (UserAgent r) = false ->
   forall ids,
     GET URL PAGE SplitHostPort now wr r ids w = Ret (Done (Some (Bytes PAGE))) w /\
     handle URL PAGE SplitHostPort "GET" now wr r ids w =
       Ret (Done (Some (Bytes PAGE))) w) /\
  (String.prefix "curl" (UserAgent r) = true ->
   not_curl (UserAgent r) = false /\
   GET URL PAGE SplitHostPort now wr r [] w = Ret (Done None) w /\
   GET URL PAGE SplitHostPort now wr r [""] w = Ret (Done None) w) /\
  ((String.length (UserAgent r) < 4)%nat ->
   String.prefix "curl" (UserAgent r) = false).
Proof.
  split; [|split].
  - intros Hua ids.
    assert (Hnot : not_curl (UserAgent r) = true)
      by (rewrite not_curl_prefix, Hua; reflexivity).
    split; [apply GET_page; exact Hnot|].
    unfold handle. cbn [String.eqb Ascii.eqb Bool.eqb]. apply GET_page. exact Hnot.
  - intros Hua.
    assert (Hnot : not_curl (UserAgent r) = false)
      by (rewrite not_curl_prefix, Hua; reflexivity).
    split; [exact Hnot|]. unfold GET. rewrite Hnot. split; reflexivity.
  - intros Hlen.
    destruct (String.prefix "curl" (UserAgent r)) eqn:Hp; [|reflexivity].
    apply prefix_correct in Hp. cbn [String.length] in Hp.
    destruct (UserAgent r) as [|a [|b [|c [|d rest]]]]; cbn in Hlen, Hp;
      try discriminate; lia.
Qed.

Lemma landing_page_unless_curl_witness :
  GET sample_URL "<html>" sample_SplitHostPort sample_clock (mkWriter true true)
      (mkRequest "Mozilla/5.0" "10.0.0.3:4000" "" None) [""; "42"; "7"]
      sample_world =
  Ret (Done (Some (Bytes "<html>"))) sample_world.
Proof.
  destruct (landing_page_unless_curl sample_URL "<html>" sample_SplitHostPort
              sample_clock (mkWriter true true)
              (mkRequest "Mozilla/5.0" "10.0.0.3:4000" "" None) sample_world)
    as [Hpage _].
  exact (proj1 (Hpage eq_refl [""; "42"; "7"])).
Defined.

(** ** More of the handlers *)

Lemma nonempty_length (s : string) :
  s <> "" -> (String.length s =? 0)%nat = false.
Proof. destruct s; [congruence | reflexivity]. Qed.

(** X13: requests from curl that name a conversation that is not in the
    map, be it a join, a read or a write, return an empty response and
    change neither the registry nor the trace; the join has only made the
    pipe of the user it drops. A join to a conversation with both slots
    occupied ends the same way. *)
Theorem absent_or_full_noop (URL PAGE : string)
    (SplitHostPort : string -> string * string * option error)
    (now : clock) (wr : ResponseWriter) (r : Request)
    (x convoId : string) (w : world) :
  mu (Store w) = false ->
  not_curl (UserAgent r) = false ->
  convoId <> "" ->
  (Convos (Store w) !! convoId = None ->
   GET URL PAGE SplitHostPort now wr r [x; convoId] w = Ret (Done None) (piped w) /\
   (forall messageId,
      GET URL PAGE SplitHostPort now wr r [x; convoId; messageId] w =
        Ret (Done None) w) /\
   PUT URL SplitHostPort now wr r [x; convoId] w = Ret (Done None) w) /\
  (forall c,
     Convos (Store w) !! convoId = Some c ->
     occupancy (Convo.Users c) = 2%nat ->
     GET URL PAGE SplitHostPort now wr r [x; convoId] w = Ret (Done None) (piped w)).
Proof.
  intros Hmu Hua Hne. pose proof (nonempty_length convoId Hne) as Hlen. split.
  - intros Hc. split; [|split].
    + rewrite GET_join_run by assumption. rewrite Hc. reflexivity.
    + intros messageId. rewrite GET_read_run by assumption. rewrite Hc. reflexivity.
    + rewrite PUT_run by assumption. rewrite Hc. reflexivity.
  - intros c Hc Hfull. rewrite GET_join_run by assumption. cbv zeta. rewrite Hc.
    destruct (Convo.Users c) as [[u0|] [u1|]]; try discriminate. reflexivity.
Qed.

Lemma absent_or_full_noop_witness :
  GET sample_URL "<html>" sample_SplitHostPort sample_clock (mkWriter true true)
      (curl_from "10.0.0.3:4000" "") [""; "42"] sample_world =
    Ret (Done None) (piped sample_world) /\
  PUT sample_URL sample_SplitHostPort sample_clock (mkWriter true true)
      (curl_from "10.0.0.1:4000" "hello") [""; "43"] sample_world =
    Ret (Done None) sample_world.
Proof.
  split.
  - destruct (absent_or_full_noop sample_URL "<html>" sample_SplitHostPort
                sample_clock (mkWriter true true) (curl_from "10.0.0.3:4000" "")
                "" "42" sample_world eq_refl eq_refl) as [_ Hfull];
      [discriminate|].
    exact (Hfull sample_convo eq_refl eq_refl).
  - destruct (absent_or_full_noop sample_URL "<html>" sample_SplitHostPort
                sample_clock (mkWriter true true)
                (curl_from "10.0.0.1:4000" "hello")
                "" "43" sample_world eq_refl eq_refl) as [Habsent _];
      [discriminate|].
    exact (proj2 (proj2 (Habsent eq_refl))).
Defined.

(** X14: a join to a conversation with one party, by a client whose writer
    can stream: the handler goes on to the loop of [Listen] with a user
    that has a new pipe, a nil [Stop], the IP of the request, the id of the
    conversation and the index of the free slot; the conversation then
    holds both, the party that was there in its slot; exactly two events
    are added, the join notice with the newcomer's IP to the party that was
    there, then the join notice with that party's IP to the newcomer; and
    the mutex is free. *)
Theorem join_introduces_both (URL PAGE : string)
    (SplitHostPort : string -> string * string * option error)
    (now : clock) (wr : ResponseWriter) (r : Request)
    (x convoId : string) (c : Convo.t) (prev : User.t) (w : world) :
  mu (Store w) = false ->
  not_curl (UserAgent r) = false ->
  convoId <> "" ->
  Convos (Store w) !! convoId = Some c ->
  occupants (Convo.Users c) = [prev] ->
  Flusher wr = true ->
  CloseNotifier wr = true ->
  exists i c' w',
    let user := User.mk (next_chan w) None (GetIP SplitHostPort (RemoteAddr r))
                        i convoId wr in
    GET URL PAGE SplitHostPort now wr r [x; convoId] w = Ret (Streaming user) w' /\
    slot_get (Convo.Users c) i = Some None /\
    Convos (Store w') !! convoId = Some c' /\
    slot_get (Convo.Users c') i = Some (Some user) /\
    slot_get (Convo.Users c') (OtherUserId i) = Some (Some prev) /\
    Convo.Messages c' = Convo.Messages c /\
    trace w' = trace w ++
      [Send (User.Pipe prev) (Bytes ("> " +:+ User.IP user));
       Send (User.Pipe user) (Bytes ("> " +:+ User.IP prev))] /\
    mu (Store w') = false /\
    forall id, id <> convoId ->
      Convos (Store w') !! id = Convos (Store w) !! id.
Proof.
  intros Hmu Hua Hne Hc Hprev Hflush Hclose.
  pose proof (nonempty_length convoId Hne) as Hlen.
  rewrite GET_join_run by assumption. cbv zeta. rewrite Hc.
  unfold listen_outcome. cbn [User.Writer]. rewrite Hflush, Hclose.
  destruct (Convo.Users c) as [[u0|] [u1|]] eqn:Hus; cbn in Hprev;
    try discriminate; injection Hprev as ->.
  - exists 1. eexists. eexists. split; [reflexivity|].
    split; [reflexivity|]. split; [apply lookup_insert_eq|].
    split; [reflexivity|]. split; [reflexivity|]. split; [reflexivity|].
    split; [reflexivity|]. split; [reflexivity|].
    intros id Hid. cbn. apply lookup_insert_ne. congruence.
  - exists 0. eexists. eexists. split; [reflexivity|].
    split; [reflexivity|]. split; [apply lookup_insert_eq|].
    split; [reflexivity|]. split; [reflexivity|]. split; [reflexivity|].
    split; [reflexivity|]. split; [reflexivity|].
    intros id Hid. cbn. apply lookup_insert_ne. congruence.
Qed.

Lemma join_introduces_both_witness :
  exists w',
    GET sample_URL "<html>" sample_SplitHostPort sample_clock (mkWriter true true)
        (curl_from "10.0.0.3:4000" "") [""; "42"] lonely_world =
      Ret (Streaming (User.mk 5%positive None "10.0.0.3" 1 "42" (mkWriter true true)))
          w' /\
    trace w' = [Send 1%positive (Bytes "> 10.0.0.3");
                Send 5%positive (Bytes "> 10.0.0.1")].
Proof.
  destruct (join_introduces_both sample_URL "<html>" sample_SplitHostPort
              sample_clock (mkWriter true true) (curl_from "10.0.0.3:4000" "")
              "" "42" lonely_convo alice lonely_world eq_refl eq_refl)
    as (i & c' & w' & Hget & Hfree & _ & _ & _ & _ & Htrace & _);
    try reflexivity; try discriminate.
  assert (i = 1) as ->.
  { unfold slot_get in Hfree. cbn in Hfree.
    destruct (Z.eqb_spec i 0); [discriminate|].
    destruct (Z.eqb_spec i 1); [assumption | discriminate]. }
  exists w'. split; [exact Hget | exact Htrace].
Defined.

(** X15: a create from curl whose id is free, by a client whose writer can
    stream: the handler goes on to the loop of [Listen] with the creator in
    slot 0 of a new conversation without messages, filed under the new id;
    the keepalive goroutine is started and the first thing sent to the
    creator is the conversation's link; afterwards the conversation exists,
    is not full, and admits the creator's IP and no other. *)
Theorem create_streams_link (URL PAGE : string)
    (SplitHostPort : string -> string * string * option error)
    (now : clock) (wr : ResponseWriter) (r : Request)
    (x convoId : string) (w : world) :
  mu (Store w) = false ->
  not_curl (UserAgent r) = false ->
  NewId now nil_bytes = (convoId, None) ->
  Convos (Store w) !! convoId = None ->
  Flusher wr = true ->
  CloseNotifier wr = true ->
  let ip := GetIP SplitHostPort (RemoteAddr r) in
  let user := User.mk (next_chan w) None ip 0 convoId wr in
  exists w',
    GET URL PAGE SplitHostPort now wr r [x; ""] w = Ret (Streaming user) w' /\
    Convos (Store w') =
      <[convoId := created convoId ip wr (next_chan w)]> (Convos (Store w)) /\
    trace w' = trace w ++
      [GoPing convoId; Println ("creating " +:+ convoId);
       Send (next_chan w) (Bytes (": " +:+ URL +:+ convoId))] /\
    inbox (next_chan w) (trace w') =
      inbox (next_chan w) (trace w) ++ [Bytes (": " +:+ URL +:+ convoId)] /\
    Room.IsConvo convoId w' = Ret true w' /\
    Room.IsConvoFull convoId w' = Ret false w' /\
    (forall ip', exists b,
       Room.IPExists convoId ip' w' = Ret b w' /\ (b = true <-> ip' = ip)).
Proof.
  intros Hmu Hua Hid Hfree Hflush Hclose ip user.
  rewrite GET_create_run by assumption. cbv zeta. rewrite Hid, Hfree.
  unfold listen_outcome. cbn [User.Writer]. rewrite Hflush, Hclose.
  eexists. split; [reflexivity|]. split; [reflexivity|]. split; [reflexivity|].
  cbn [trace Store Convos].
  split.
  { rewrite inbox_app. cbn. rewrite decide_True by reflexivity. reflexivity. }
  split.
  { rewrite IsConvo_run by reflexivity. cbn [Store Convos].
    rewrite lookup_insert_eq. reflexivity. }
  split.
  { rewrite (IsConvoFull_run convoId (created convoId ip wr (next_chan w)));
      [reflexivity | reflexivity | apply lookup_insert_eq]. }
  intros ip'. eexists. split.
  { apply (IPExists_run convoId ip' (created convoId ip wr (next_chan w)));
      [reflexivity | apply lookup_insert_eq]. }
  cbn. rewrite orb_false_r, bool_decide_eq_true. split; congruence.
Qed.

Lemma create_streams_link_witness :
  exists w',
    sample_create (initial 1%positive) =
      Ret (Streaming (User.mk 1%positive None "10.0.0.1" 0 sample_id
                              (mkWriter true true))) w' /\
    trace w' =
      [GoPing sample_id; Println ("creating " +:+ sample_id);
       Send 1%positive (Bytes (": " +:+ sample_URL +:+ sample_id))].
Proof.
  destruct (create_streams_link sample_URL "<html>" sample_SplitHostPort
              sample_clock (mkWriter true true) (curl_from "10.0.0.1:4000" "")
              "" sample_id (initial 1%positive)
              eq_refl eq_refl eq_refl eq_refl eq_refl eq_refl)
    as (w' & Hget & _ & Htrace & _).
  exists w'. split; [exact Hget | exact Htrace].
Defined.

(** X16: when the writer cannot flush, [Listen] fails only after the user
    has been put in the conversation, and the handler panics without taking
    it out again. After a create the new conversation is left in the
    registry with its keepalive goroutine started and the creator in slot
    0; after a join the newcomer is left in the free slot, so the
    conversation is full. *)
Theorem no_flusher_leaves_user (URL PAGE : string)
    (SplitHostPort : string -> string * string * option error)
    (now : clock) (wr : ResponseWriter) (r : Request) (x : string) (w : world) :
  mu (Store w) = false ->
  not_curl (UserAgent r) = false ->
  Flusher wr = false ->
  let ip := GetIP SplitHostPort (RemoteAddr r) in
  (forall convoId,
     NewId now nil_bytes = (convoId, None) ->
     Convos (Store w) !! convoId = None ->
     exists w',
       GET URL PAGE SplitHostPort now wr r [x; ""] w =
         Panic (ErrorValue "couldn't get flusher") w' /\
       Convos (Store w') !! convoId = Some (created convoId ip wr (next_chan w)) /\
       GoPing convoId ∈ trace w' /\
       mu (Store w') = false) /\
  (forall convoId c prev,
     convoId <> "" ->
     Convos (Store w) !! convoId = Some c ->
     occupants (Convo.Users c) = [prev] ->
     exists w' c',
       GET URL PAGE SplitHostPort now wr r [x; convoId] w =
         Panic (ErrorValue "couldn't get flusher") w' /\
       Convos (Store w') !! convoId = Some c' /\
       occupancy (Convo.Users c') = 2%nat /\
       (exists u, u ∈ occupants (Convo.Users c') /\
                  User.Pipe u = next_chan w /\ User.IP u = ip) /\
       mu (Store w') = false).
Proof.
  intros Hmu Hua Hflush ip. split.
  - intros convoId Hid Hfree.
    rewrite GET_create_run by assumption. cbv zeta. rewrite Hid, Hfree.
    unfold listen_outcome. cbn [User.Writer]. rewrite Hflush.
    eexists. split; [reflexivity|]. split; [apply lookup_insert_eq|].
    split; [|reflexivity].
    cbn [trace]. apply elem_of_app. right. apply list_elem_of_here.
  - intros convoId c prev Hne Hc Hprev.
    pose proof (nonempty_length convoId Hne) as Hlen.
    rewrite GET_join_run by assumption. cbv zeta. rewrite Hc.
    unfold listen_outcome. cbn [User.Writer]. rewrite Hflush.
    destruct (Convo.Users c) as [[u0|] [u1|]] eqn:Hus; cbn in Hprev;
      try discriminate; injection Hprev as ->.
    + eexists. eexists. split; [reflexivity|]. split; [apply lookup_insert_eq|].
      split; [reflexivity|]. split; [|reflexivity].
      eexists. split; [apply list_elem_of_further, list_elem_of_here|].
      split; reflexivity.
    + eexists. eexists. split; [reflexivity|]. split; [apply lookup_insert_eq|].
      split; [reflexivity|]. split; [|reflexivity].
      eexists. split; [apply list_elem_of_here|]. split; reflexivity.
Qed.

Lemma no_flusher_leaves_user_witness :
  exists w' c',
    GET sample_URL "<html>" sample_SplitHostPort sample_clock (mkWriter false true)
        (curl_from "10.0.0.3:4000" "") [""; "42"] lonely_world =
      Panic (ErrorValue "couldn't get flusher") w' /\
    Convos (Store w') !! "42" = Some c' /\
    occupancy (Convo.Users c') = 2%nat.
Proof.
  destruct (no_flusher_leaves_user sample_URL "<html>" sample_SplitHostPort
              sample_clock (mkWriter false true) (curl_from "10.0.0.3:4000" "")
              "" lonely_world eq_refl eq_refl eq_refl) as [_ Hjoin].
  destruct (Hjoin "42" lonely_convo alice) as (w' & c' & Hget & Hc' & Hfull & _);
    try reflexivity; try discriminate.
  exists w', c'. auto.
Defined.

(** X17: a write followed by a read. An occupant writes a body whose id is
    free; an occupant then reads the id the notices carry. The write
    returns an empty response; the read returns exactly the body that was
    written; after it the registry map is the one before the write; the
    trace has grown by the new-message notices to the occupants and then
    the read receipts to the occupants; and the same read made once more
    panics with the error of a missing message and changes nothing. *)
Theorem write_then_read (URL PAGE : string)
    (SplitHostPort : string -> string * string * option error)
    (now now' : clock) (wr wr' : ResponseWriter) (writer reader : Request)
    (x y convoId messageId : string) (c : Convo.t) (w : world) :
  mu (Store w) = false ->
  Convos (Store w) !! convoId = Some c ->
  authorized SplitHostPort writer c ->
  authorized SplitHostPort reader c ->
  not_curl (UserAgent reader) = false ->
  BodyErr writer = None ->
  NewId now (Bytes (Body writer)) = (messageId, None) ->
  Convo.Messages c !! messageId = None ->
  let ip := GetIP SplitHostPort (RemoteAddr writer) in
  let notice u :=
    Send (User.Pipe u)
      (Bytes (marker u ip +:+ " " +:+
              message_link URL (Convo.ConvoId c) messageId)) in
  let receipt u :=
    Send (User.Pipe u) (Bytes ("- " +:+ message_link URL convoId messageId)) in
  exists w1 w2,
    PUT URL SplitHostPort now wr writer [x; convoId] w = Ret (Done None) w1 /\
    GET URL PAGE SplitHostPort now' wr' reader [y; convoId; messageId] w1 =
      Ret (Done (Some (Bytes (Body writer)))) w2 /\
    Convos (Store w2) = Convos (Store w) /\
    mu (Store w2) = false /\
    trace w2 = trace w ++ map notice (occupants (Convo.Users c)) ++
                         map receipt (occupants (Convo.Users c)) /\
    GET URL PAGE SplitHostPort now' wr' reader [y; convoId; messageId] w2 =
      Panic (ErrorValue "message doesn't exist") w2.
Proof.
  intros Hmu Hc Hwriter Hreader Hua Hbody Hid Hfree ip notice receipt.
  apply has_ip_occupants in Hwriter. apply has_ip_occupants in Hreader.
  rewrite PUT_run by exact Hmu. rewrite Hc. cbv zeta.
  rewrite Hwriter, Hbody, AddMessage_eq, Hid, Hfree.
  set (c1 := with_Messages (<[messageId := Bytes (Body writer)]> (Convo.Messages c)) c).
  set (w1 := at_rest (<[convoId := c1]> (Convos (Store w)))
               (trace w ++ map notice (occupants (Convo.Users c))) w).
  assert (Hc1 : Convos (Store w1) !! convoId = Some c1) by apply lookup_insert_eq.
  assert (Hread1 : Convo.ReadMessage c1 messageId = Bytes (Body writer)).
  { unfold Convo.ReadMessage, c1. cbn. rewrite lookup_insert_eq. reflexivity. }
  assert (Hback : <[convoId := with_Messages (delete messageId (Convo.Messages c1)) c1]>
                    (Convos (Store w1)) = Convos (Store w)).
  { unfold w1, c1, at_rest, with_Messages. cbn.
    rewrite insert_insert_eq, delete_insert_eq, delete_id by exact Hfree.
    apply insert_id. rewrite Hc. destruct c; reflexivity. }
  set (w2 := at_rest (Convos (Store w))
               (trace w1 ++ map receipt (occupants (Convo.Users c))) w1).
  assert (Hget1 : GET URL PAGE SplitHostPort now' wr' reader [y; convoId; messageId] w1
                  = Ret (Done (Some (Bytes (Body writer)))) w2).
  { rewrite GET_read_run by (exact Hua || reflexivity). rewrite Hc1. cbv zeta.
    change (Convo.Users c1) with (Convo.Users c).
    rewrite Hreader, Hread1. cbn [is_nil]. rewrite Hback. reflexivity. }
  assert (Hget2 : GET URL PAGE SplitHostPort now' wr' reader [y; convoId; messageId] w2
                  = Panic (ErrorValue "message doesn't exist") w2).
  { rewrite GET_read_run by (exact Hua || reflexivity).
    change (Convos (Store w2)) with (Convos (Store w)). rewrite Hc. cbv zeta.
    rewrite Hreader. unfold Convo.ReadMessage. rewrite Hfree. cbn [default is_nil].
    rewrite delete_id by exact Hfree. rewrite with_Messages_id.
    rewrite insert_id by exact Hc. reflexivity. }
  exists w1, w2. split; [reflexivity|]. split; [exact Hget1|].
  split; [reflexivity|]. split; [reflexivity|]. split; [|exact Hget2].
  unfold w2, w1. cbn [trace at_rest]. rewrite <- app_assoc. reflexivity.
Qed.

Lemma write_then_read_witness :
  exists w1 w2,
    PUT sample_URL sample_SplitHostPort sample_clock (mkWriter true true)
        (curl_from "10.0.0.2:5000" "hello") [""; "42"] sample_world =
      Ret (Done None) w1 /\
    GET sample_URL "<html>" sample_SplitHostPort sample_clock (mkWriter true true)
        (curl_from "10.0.0.1:4000" "") [""; "42"; sample_message] w1 =
      Ret (Done (Some (Bytes "hello"))) w2 /\
    Convos (Store w2) = Convos (Store sample_world).
Proof.
  destruct (write_then_read sample_URL "<html>" sample_SplitHostPort
              sample_clock sample_clock (mkWriter true true) (mkWriter true true)
              (curl_from "10.0.0.2:5000" "hello") (curl_from "10.0.0.1:4000" "")
              "" "" "42" sample_message sample_convo sample_world
              eq_refl eq_refl)
    as (w1 & w2 & Hput & Hget & Hmap & _); try reflexivity.
  - exists bob. split; [apply list_elem_of_further, list_elem_of_here | reflexivity].
  - exists alice. split; [apply list_elem_of_here | reflexivity].
  - exists w1, w2. auto.
Defined.

Lemma forwarded_app ls ls' : forwarded (ls ++ ls') = forwarded ls ++ forwarded ls'.
Proof.
  induction ls as [|l ls IH]; [reflexivity|].
  destruct l; cbn; rewrite IH; reflexivity.
Qed.

Lemma deletes_app ls ls' : deletes (ls ++ ls') = (deletes ls + deletes ls')%nat.
Proof.
  induction ls as [|l ls IH]; [reflexivity|].
  destruct l; cbn; rewrite IH; reflexivity.
Qed.

(** What a run of [Listen] keeps: the user, what has been written, and how
    far the goroutine is against the client and the calls of
    [DeleteUser]. *)
Lemma listen_bookkeeping u ls c :
  ListenLoop.run (ListenLoop.start u) ls c ->
  ListenLoop.user c = u /\
  ListenLoop.written c = forwarded ls /\
  (ListenLoop.ForwardClosed ∉ ls) /\
  match ListenLoop.cleaner c with
  | ListenLoop.AtNotify => deletes ls = 0%nat
  | ListenLoop.AtDeleteUser =>
      deletes ls = 0%nat /\ ListenLoop.client_gone c = true
  | _ => deletes ls = 1%nat /\ ListenLoop.client_gone c = true
  end.
Proof.
  intros Hrun. remember (ListenLoop.start u) as c0 eqn:Hc0.
  induction Hrun as [c | c ls c' l c'' Hrun IH Hstep].
  - subst c. split; [reflexivity|]. split; [reflexivity|].
    split; [intros H; inversion H | reflexivity].
  - destruct (IH Hc0) as (Hu & Hwr & Hnever & Hcl). clear IH. subst c.
    pose proof (cleaner_invariant u ls c' Hrun) as Hinv.
    assert (Hkeep : forall l0, l0 <> ListenLoop.ForwardClosed ->
                      ListenLoop.ForwardClosed ∉ ls ++ [l0]).
    { intros l0 Hl0 H. apply elem_of_app in H as [H|H]; [exact (Hnever H)|].
      apply list_elem_of_singleton in H. congruence. }
    rewrite forwarded_app, deletes_app.
    destruct Hstep;
      cbn [ListenLoop.user ListenLoop.written ListenLoop.cleaner
           ListenLoop.client_gone ListenLoop.loop ListenLoop.pipe_closed
           forwarded deletes] in *;
      rewrite ?app_nil_r, ?Nat.add_0_r.
    + split; [exact Hu|]. split; [exact Hwr|]. split; [apply Hkeep; discriminate|].
      destruct g; try exact Hcl; destruct Hcl as (Hd & ?); auto.
    + split; [exact Hu|]. split; [exact Hwr|]. split; [apply Hkeep; discriminate|].
      auto.
    + split; [exact Hu|]. split; [exact Hwr|]. split; [apply Hkeep; discriminate|].
      destruct Hcl as (Hd & Hg). rewrite Hd. auto.
    + split; [exact Hu|]. split; [exact Hwr|]. split; [apply Hkeep; discriminate|].
      exact Hcl.
    + split; [exact Hu|]. split; [exact Hwr|]. split; [apply Hkeep; discriminate|].
      exact Hcl.
    + split; [exact Hu|]. split; [exact Hwr|]. split; [apply Hkeep; discriminate|].
      exact Hcl.
    + split; [exact Hu|]. split; [rewrite Hwr; reflexivity|].
      split; [apply Hkeep; discriminate|]. exact Hcl.
    + (* a read on the closed pipe needs the loop still running *)
      exfalso. destruct g; try congruence;
        destruct Hinv as (Hl & _); congruence.
Qed.

(** X18: in every run of [Listen], what has been written to the client is
    exactly the data the senders put on the pipe, in their order: the loop
    never receives from the pipe once it is closed, so no empty event is
    written. And whenever the goroutine calls [DeleteUser], the client has
    closed the connection, the call names the user's own conversation and
    slot, and it is the first such call; no run has more than one. *)
Theorem Listen_forwards_deletes_once (u : User.t) (ls : list ListenLoop.label)
    (c : ListenLoop.conn) :
  ListenLoop.run (ListenLoop.start u) ls c ->
  ListenLoop.written c = forwarded ls /\
  (ListenLoop.ForwardClosed ∉ ls) /\
  (deletes ls <= 1)%nat /\
  (forall l c', ListenLoop.step c l c' ->
     ListenLoop.loop c <> ListenLoop.AtSelect ->
     ListenLoop.written c' = ListenLoop.written c) /\
  forall convoId userId c',
    ListenLoop.step c (ListenLoop.CallDeleteUser convoId userId) c' ->
    ListenLoop.client_gone c = true /\
    convoId = User.ConvoId u /\ userId = User.UserId u /\
    deletes ls = 0%nat.
Proof.
  intros Hrun.
  destruct (listen_bookkeeping u ls c Hrun) as (Hu & Hwr & Hnever & Hcl).
  split; [exact Hwr|]. split; [exact Hnever|]. split.
  { destruct (ListenLoop.cleaner c); intuition lia. }
  split.
  { intros l c' Hstep Hret. destruct Hstep; cbn in *; congruence. }
  intros convoId userId c' Hstep.
  inversion Hstep; subst; cbn in *. tauto.
Qed.

Lemma Listen_forwards_deletes_once_witness :
  exists c,
    ListenLoop.run (ListenLoop.start dave)
      [ListenLoop.Forward (Bytes "> 10.0.0.1"); ListenLoop.ClientCloses;
       ListenLoop.Notified] c /\
    ListenLoop.written c = [Bytes "> 10.0.0.1"] /\
    forall convoId userId c',
      ListenLoop.step c (ListenLoop.CallDeleteUser convoId userId) c' ->
      convoId = "42" /\ userId = 0.
Proof.
  exists (ListenLoop.mk dave ListenLoop.AtSelect ListenLoop.AtDeleteUser true false
            [Bytes "> 10.0.0.1"]).
  assert (Hrun : ListenLoop.run (ListenLoop.start dave)
            [ListenLoop.Forward (Bytes "> 10.0.0.1"); ListenLoop.ClientCloses;
             ListenLoop.Notified]
            (ListenLoop.mk dave ListenLoop.AtSelect ListenLoop.AtDeleteUser true false
               [Bytes "> 10.0.0.1"])).
  { apply (ListenLoop.run_snoc _
             [ListenLoop.Forward (Bytes "> 10.0.0.1"); ListenLoop.ClientCloses]
             (ListenLoop.mk dave ListenLoop.AtSelect ListenLoop.AtNotify true false
                [Bytes "> 10.0.0.1"]));
      [|apply ListenLoop.step_notify].
    apply (ListenLoop.run_snoc _ [ListenLoop.Forward (Bytes "> 10.0.0.1")]
             (ListenLoop.mk dave ListenLoop.AtSelect ListenLoop.AtNotify false false
                [Bytes "> 10.0.0.1"]));
      [|apply ListenLoop.step_client].
    apply (ListenLoop.run_snoc _ [] (ListenLoop.start dave));
      [apply ListenLoop.run_nil|].
    apply (ListenLoop.step_forward dave ListenLoop.AtNotify false []). }
  destruct (Listen_forwards_deletes_once dave _ _ Hrun) as (Hwr & _ & _ & _ & Hdel).
  split; [exact Hrun|]. split; [exact Hwr|].
  intros convoId userId c' Hstep.
  destruct (Hdel convoId userId c' Hstep) as (_ & Hc & Hu & _). auto.
Defined.

(** ** Creating at one clock reading *)

(** X19: the id of a conversation is made from the clock alone. A create
    whose id is free returns the id, with the creator in slot 0 of a new
    conversation and every other conversation as it was; a second create
    at the same clock reading, by whatever user, returns the empty id with
    the collision error and changes nothing: neither the first
    conversation nor the trace, and no keepalive goroutine is started for
    it. *)
Theorem CreateConvo_same_clock (now : clock) (user other : User.t)
    (convoId : string) (w : world) :
  mu (Store w) = false ->
  NewId now nil_bytes = (convoId, None) ->
  Convos (Store w) !! convoId = None ->
  exists user' w1,
    Room.CreateConvo now user w = Ret (user', (convoId, None)) w1 /\
    User.ConvoId user' = convoId /\ User.UserId user' = 0 /\
    User.Pipe user' = User.Pipe user /\ User.IP user' = User.IP user /\
    (Convo.Users <$> Convos (Store w1) !! convoId) = Some (Some user', None) /\
    (forall id, id <> convoId ->
       Convos (Store w1) !! id = Convos (Store w) !! id) /\
    size (Convos (Store w1)) = S (size (Convos (Store w))) /\
    Room.CreateConvo now other w1 =
      Ret (other, ("", Some "convo id overwrite")) w1.
Proof.
  intros Hmu Hid Hfree.
  rewrite (CreateConvo_run now user w Hmu), Hid, Hfree. cbv zeta.
  eexists. eexists. split; [reflexivity|].
  split; [reflexivity|]. split; [reflexivity|].
  split; [reflexivity|]. split; [reflexivity|].
  cbn [Store Convos]. split; [rewrite lookup_insert_eq; reflexivity|].
  split; [intros id Hne; apply lookup_insert_ne; congruence|].
  split; [apply map_size_insert_None; exact Hfree|].
  rewrite CreateConvo_run by reflexivity. rewrite Hid.
  cbn [Store Convos]. rewrite lookup_insert_eq. reflexivity.
Qed.

Lemma CreateConvo_same_clock_witness :
  exists user' w1,
    Room.CreateConvo sample_clock carol (initial 1%positive) =
      Ret (user', (sample_id, None)) w1 /\
    Room.CreateConvo sample_clock dave w1 =
      Ret (dave, ("", Some "convo id overwrite")) w1.
Proof.
  destruct (CreateConvo_same_clock sample_clock carol dave sample_id
              (initial 1%positive) eq_refl eq_refl eq_refl)
    as (user' & w1 & Hfirst & _ & _ & _ & _ & _ & _ & _ & Hsecond).
  exists user', w1. split; assumption.
Defined.

(** ** Paths by their slashes *)

Lemma split_slash_length path :
  length (split_slash path) = S (slashes path).
Proof.
  induction path as [|ch rest IH]; [reflexivity|].
  cbn [split_slash slashes]. destruct (Ascii.eqb ch "/").
  - cbn [length]. rewrite IH. reflexivity.
  - destruct (split_slash rest) as [|piece pieces]; [discriminate IH|].
    exact IH.
Qed.

(** X20: the path of a request splits into one piece more than it has
    slashes. A write acts only on a path with exactly one slash, and a
    request from curl only on a path with one or two: for every other
    path the handler returns an empty response and the world is as it
    was. *)
Theorem route_by_slashes (URL PAGE : string)
    (SplitHostPort : string -> string * string * option error)
    (now : clock) (wr : ResponseWriter) (r : Request) (path : string)
    (w : world) :
  length (split_slash path) = S (slashes path) /\
  (slashes path <> 1%nat ->
   route URL PAGE SplitHostPort "PUT" path now wr r w = Ret (Done None) w) /\
  (not_curl (UserAgent r) = false ->
   slashes path <> 1%nat -> slashes path <> 2%nat ->
   route URL PAGE SplitHostPort "GET" path now wr r w = Ret (Done None) w).
Proof.
  pose proof (split_slash_length path) as Hlen.
  split; [exact Hlen|]. unfold route, handle. cbn [String.eqb Ascii.eqb Bool.eqb].
  split.
  - intros H1. destruct (split_slash path) as [|a [|b [|c ids]]]; cbn in Hlen;
      try reflexivity. lia.
  - intros Hua H1 H2. unfold GET. rewrite Hua.
    destruct (split_slash path) as [|a [|b [|c [|d ids]]]]; cbn in Hlen;
      try reflexivity; lia.
Qed.
